(** * LifeOS 0-21 frontend: API client and daily checklist controller

    A shallow embedding of [frontend/app/services/api.ts], of the state
    logic of [frontend/app/components/DailyChecklist.tsx] and of the data
    load of [frontend/app/components/DashboardCharts.tsx].

    - JavaScript numbers that hold identifiers, counts and scores are
      integers ([Z]), meant within the safe integers; how a number beyond
      them is printed in a URL is a parameter.  The one place where the
      code divides
      ([completionPercentage]) is evaluated in IEEE-754 binary64 through
      the Standard Library's [SpecFloat].
    - An [async] function of the API client is a finite tree of [fetch]
      calls ([Async]); a network is an oracle that answers each request
      from the history of requests, by a response or by a rejection.
    - An [async] handler of the component is split where it awaits: the
      part that runs synchronously ([*_start]) and the part that runs when
      the awaited call settles ([*_settle]), which sees the state as it is
      at that later moment. *)

From Stdlib Require Import ZArith String List Bool Lia DecimalString DecimalZ SpecFloat
  FinFun Permutation.
Import ListNotations.

Local Open Scope string_scope.
Local Open Scope Z_scope.

(** ** Data model ([api.ts], lines 9-26) *)

Inductive Pillar := Cognitive | Physical | Language | Character | Creativity.

Inductive Difficulty := easy | medium | hard.

(** [completion_timestamp?: string | null]: absent, [null] or a string. *)
Inductive Optional (A : Type) :=
| absent
| null
| present (a : A).
Arguments absent {A}.
Arguments null {A}.
Arguments present {A} a.

Record DailyTask := mkTask {
  id : Z;
  child_id : Z;
  pillar : Pillar;
  title : string;
  description : string;
  duration_minutes : Z;
  difficulty_level : Difficulty;
  completed : bool;
  completion_timestamp : Optional string;
  date_assigned : string
}.

Record SaveCheckinPayload := mkCheckin {
  checkin_child_id : Z;
  joy_score : Z;
  parent_notes : string
}.

(** [{ ...task, completed }] *)
Definition with_completed (task : DailyTask) (c : bool) : DailyTask :=
  {| id := id task;
     child_id := child_id task;
     pillar := pillar task;
     title := title task;
     description := description task;
     duration_minutes := duration_minutes task;
     difficulty_level := difficulty_level task;
     completed := c;
     completion_timestamp := completion_timestamp task;
     date_assigned := date_assigned task |}.

(** ** The network boundary *)

(** The argument of [JSON.stringify]. *)
#[local] Unset Elimination Schemes.
Inductive JSON :=
| JNull
| JBool (b : bool)
| JNum (n : Z)
| JStr (s : string)
| JArr (items : list JSON)
| JObj (fields : list (string * JSON)).
#[local] Set Elimination Schemes.

Inductive Method := GET | POST.

Inductive CacheMode := no_store.

Record Request := mkRequest {
  url : string;
  method : Method;
  headers : list (string * string);
  body : option JSON;
  cache : option CacheMode
}.

(** A thrown value: an [Error] object (of any subclass) with its message,
    or something that is not an instance of [Error]. *)
Inductive Thrown :=
| ErrorObject (name message : string)
| NotAnError.

Definition new_Error (message : string) : Thrown := ErrorObject "Error" message.

Inductive JsResult (A : Type) :=
| Fulfilled (a : A)
| Rejected (e : Thrown).
Arguments Fulfilled {A} a.
Arguments Rejected {A} e.

(** What [response.json()] yields, read at the type the call site declares
    ([Promise<DailyTask[]>], [Promise<DailyTask>], or a body never read). *)
Inductive BodyType := TTasks | TTask | TIgnored.

Definition body_of (t : BodyType) : Type :=
  match t with
  | TTasks => list DailyTask
  | TTask => DailyTask
  | TIgnored => unit
  end.

Record Response (t : BodyType) := mkResponse {
  status : Z;
  json : JsResult (body_of t)
}.
Arguments status {t} r.
Arguments json {t} r.

(** [response.ok]: the status is in the range 200-299. *)
Definition ok {t} (r : Response t) : bool :=
  (200 <=? status r) && (status r <=? 299).

(** A network answers a request, given the requests issued before it:
    [fetch] resolves with a response (whatever its status) or rejects. *)
Definition Network := list Request -> forall t : BodyType, Request -> JsResult (Response t).

(** ** Async functions whose only effect is [fetch] *)

Inductive Async (A : Type) : Type :=
| Return (a : A)
| Throw (e : Thrown)
| Await_fetch (t : BodyType) (req : Request) (k : Response t -> Async A).
Arguments Return {A} a.
Arguments Throw {A} e.
Arguments Await_fetch {A} t req k.

Fixpoint bind {A B} (p : Async A) (f : A -> Async B) : Async B :=
  match p with
  | Return a => f a
  | Throw e => Throw e
  | Await_fetch t req k => Await_fetch t req (fun r => bind (k r) f)
  end.

Declare Scope async_scope.
Delimit Scope async_scope with async.
Notation "x <- p ;; q" := (bind p (fun x => q))
  (at level 61, p at next level, right associativity) : async_scope.
Notation "p ;; q" := (bind p (fun _ => q))
  (at level 61, right associativity) : async_scope.

(** [await fetch(url, init)] *)
Definition fetch (t : BodyType) (req : Request) : Async (Response t) :=
  Await_fetch t req (fun r => Return r).

(** [response.json()] *)
Definition response_json {t} (r : Response t) : Async (body_of t) :=
  match json r with
  | Fulfilled v => Return v
  | Rejected e => Throw e
  end.

(** Performing an async function against a network, from the log of requests
    issued so far: the log afterwards and how the promise settles.  A
    rejected [fetch] is thrown at the [await]; nothing in the API client
    catches it. *)
Fixpoint perform {A} (net : Network) (log : list Request) (p : Async A)
  : list Request * JsResult A :=
  match p with
  | Return a => (log, Fulfilled a)
  | Throw e => (log, Rejected e)
  | Await_fetch t req k =>
      match net log t req with
      | Fulfilled r => perform net (log ++ [req])%list (k r)
      | Rejected e => ((log ++ [req])%list, Rejected e)
      end
  end.

(** [Number.MAX_SAFE_INTEGER]: up to it, in absolute value, every integer
    is a number of its own. *)
Definition MAX_SAFE_INTEGER : Z := 9007199254740991.

Definition safe_integer (n : Z) : bool :=
  (- MAX_SAFE_INTEGER <=? n) && (n <=? MAX_SAFE_INTEGER).

(** What the code leaves to the JavaScript engine: the text a template
    literal gives a number beyond the safe integers (the digits of the
    number nearest to it, in exponent form from 1e21 on). *)
Record Engine := mkEngine {
  Number_toString_beyond : Z -> string
}.

(** ** The API client ([api.ts]) *)

Section Deployment.

(** [process.env.NEXT_PUBLIC_API_BASE_URL ?? 'http://localhost:8000'] *)
Variable API_BASE_URL : string.

(** The JavaScript engine, taken as given. *)
Variable engine : Engine.

(** A number in a template literal: a safe integer is printed with its
    decimal digits. *)
Definition string_of_number (n : Z) : string :=
  if safe_integer n then NilZero.string_of_int (Z.to_int n)
  else Number_toString_beyond engine n.

Definition json_headers : list (string * string) :=
  [("Content-Type", "application/json")].

(** [fetch(`${API_BASE_URL}/profiles/`, { method: 'POST', ... })] *)
Definition profile_request : Request :=
  {| url := API_BASE_URL ++ "/profiles/";
     method := POST;
     headers := json_headers;
     body := Some (JObj [("name", JStr "Demo Child");
                         ("date_of_birth", JStr "2015-06-15");
                         ("interests", JArr [JStr "learning"; JStr "sports"]);
                         ("parent_priority", JStr "balanced development")]);
     cache := None |}.

(** [fetch(`${API_BASE_URL}/daily-plan/${childId}`, { cache: 'no-store' })] *)
Definition plan_request (childId : Z) : Request :=
  {| url := API_BASE_URL ++ "/daily-plan/" ++ string_of_number childId;
     method := GET;
     headers := [];
     body := None;
     cache := Some no_store |}.

Definition complete_request (taskId : Z) (completed : bool) : Request :=
  {| url := API_BASE_URL ++ "/tasks/complete_task";
     method := POST;
     headers := json_headers;
     body := Some (JObj [("task_id", JNum taskId); ("completed", JBool completed)]);
     cache := None |}.

Definition checkin_request (payload : SaveCheckinPayload) : Request :=
  {| url := API_BASE_URL ++ "/daily-plan/"
              ++ string_of_number (checkin_child_id payload) ++ "/checkin";
     method := POST;
     headers := json_headers;
     body := Some (JObj [("joy_score", JNum (joy_score payload));
                         ("parent_notes", JStr (parent_notes payload))]);
     cache := None |}.

Local Open Scope async_scope.

(** Lines 34-45: the response of the profile request is not looked at. *)
Definition ensureDefaultProfileExists : Async unit :=
  _ <- fetch TIgnored profile_request ;;
  Return tt.

(** Lines 48-71.  Both ways out of the [if (response.status === 404)]
    block that do not return reach the [throw] of line 70. *)
Definition fetchDailyPlan (childId : Z) : Async (list DailyTask) :=
  let line_70 := Throw (new_Error "Failed to fetch daily plan") in
  response <- fetch TTasks (plan_request childId) ;;
  if ok response then response_json response
  else if status response =? 404 then
    ensureDefaultProfileExists ;;
    retry <- fetch TTasks (plan_request childId) ;;
    if ok retry then response_json retry
    else line_70
  else line_70.

(** Lines 74-86. *)
Definition completeTask (taskId : Z) (completed : bool) : Async DailyTask :=
  response <- fetch TTask (complete_request taskId completed) ;;
  if negb (ok response) then Throw (new_Error "Failed to update task status")
  else response_json response.

(** Lines 93-106. *)
Definition saveDailyCheckin (payload : SaveCheckinPayload) : Async unit :=
  response <- fetch TIgnored (checkin_request payload) ;;
  if negb (ok response)
  then Throw (new_Error "Failed to save joy score and parent notes")
  else Return tt.

(** ** The checklist component ([DailyChecklist.tsx]) *)

(** JavaScript numbers are binary64 floating-point values. *)
Definition Number_of_Z (n : Z) : spec_float := binary_normalize 53 1024 n 0 false.

Definition Number_div : spec_float -> spec_float -> spec_float := SFdiv 53 1024.

Definition Number_mul : spec_float -> spec_float -> spec_float := SFmul 53 1024.

(** [Math.round]: the integer nearest to [x], a tie going up; the sign of
    a zero result is the sign of [x]. *)
Definition Math_round (x : spec_float) : spec_float :=
  match x with
  | S754_finite s m e =>
      let v := if s then Z.neg m else Z.pos m in
      let n := if 0 <=? e then v * 2 ^ e
               else (2 * v + 2 ^ (- e)) / 2 ^ (1 - e) in
      if n =? 0 then S754_zero s else Number_of_Z n
  | _ => x
  end.

(** [today] is [new Date().toISOString().slice(0, 10)] at module load. *)
Variable today : string.

(** Lines 21-82. *)
Definition DEMO_TASKS : list DailyTask :=
  [ {| id := 1001; child_id := 1; pillar := Cognitive;
       title := "Math Puzzle Sprint";
       description := "Solve 5 logic problems with a 15-minute timer.";
       duration_minutes := 15; difficulty_level := medium;
       completed := true; completion_timestamp := null;
       date_assigned := today |};
    {| id := 1002; child_id := 1; pillar := Physical;
       title := "Movement Circuit";
       description := "Complete 3 rounds of jump, squat, and stretch.";
       duration_minutes := 20; difficulty_level := easy;
       completed := false; completion_timestamp := null;
       date_assigned := today |};
    {| id := 1003; child_id := 1; pillar := Language;
       title := "Story Retell";
       description := "Read a short story and summarize it in 5 sentences.";
       duration_minutes := 25; difficulty_level := medium;
       completed := false; completion_timestamp := null;
       date_assigned := today |};
    {| id := 1004; child_id := 1; pillar := Character;
       title := "Gratitude Reflection";
       description := "Write down 3 things you are thankful for today.";
       duration_minutes := 10; difficulty_level := easy;
       completed := true; completion_timestamp := null;
       date_assigned := today |};
    {| id := 1005; child_id := 1; pillar := Creativity;
       title := "Sketch Challenge";
       description := "Draw your future city in under 20 minutes.";
       duration_minutes := 20; difficulty_level := hard;
       completed := false; completion_timestamp := null;
       date_assigned := today |} ].

(** The [useState] cells of lines 93-99. *)
Record State := mkState {
  tasks : list DailyTask;
  loading : bool;
  error : option string;
  joyScore : Z;
  parentNotes : string;
  saving : bool;
  saveMessage : option string
}.

Definition initial_state : State :=
  {| tasks := []; loading := true; error := None; joyScore := 3;
     parentNotes := EmptyString; saving := false; saveMessage := None |}.

(** [setTasks(value)] *)
Definition setTasks (value : list DailyTask) (st : State) : State :=
  {| tasks := value; loading := loading st; error := error st;
     joyScore := joyScore st; parentNotes := parentNotes st;
     saving := saving st; saveMessage := saveMessage st |}.

(** [setTasks((current) => ...)] *)
Definition setTasks_from (f : list DailyTask -> list DailyTask) (st : State) : State :=
  setTasks (f (tasks st)) st.

Definition setLoading (b : bool) (st : State) : State :=
  {| tasks := tasks st; loading := b; error := error st;
     joyScore := joyScore st; parentNotes := parentNotes st;
     saving := saving st; saveMessage := saveMessage st |}.

Definition setError (e : option string) (st : State) : State :=
  {| tasks := tasks st; loading := loading st; error := e;
     joyScore := joyScore st; parentNotes := parentNotes st;
     saving := saving st; saveMessage := saveMessage st |}.

Definition setJoyScore (n : Z) (st : State) : State :=
  {| tasks := tasks st; loading := loading st; error := error st;
     joyScore := n; parentNotes := parentNotes st;
     saving := saving st; saveMessage := saveMessage st |}.

Definition setParentNotes (s : string) (st : State) : State :=
  {| tasks := tasks st; loading := loading st; error := error st;
     joyScore := joyScore st; parentNotes := s;
     saving := saving st; saveMessage := saveMessage st |}.

Definition setSaving (b : bool) (st : State) : State :=
  {| tasks := tasks st; loading := loading st; error := error st;
     joyScore := joyScore st; parentNotes := parentNotes st;
     saving := b; saveMessage := saveMessage st |}.

Definition setSaveMessage (m : option string) (st : State) : State :=
  {| tasks := tasks st; loading := loading st; error := error st;
     joyScore := joyScore st; parentNotes := parentNotes st;
     saving := saving st; saveMessage := m |}.

(** Lines 120-124. *)
Definition completionPercentage (tasks : list DailyTask) : spec_float :=
  if (length tasks =? 0)%nat then Number_of_Z 0
  else
    let done := length (filter (fun task => completed task) tasks) in
    Math_round
      (Number_mul
         (Number_div (Number_of_Z (Z.of_nat done))
                     (Number_of_Z (Z.of_nat (length tasks))))
         (Number_of_Z 100)).

(** The percentage the specification gives: 100 * done / total in exact
    arithmetic, rounded to the nearest integer, a tie going up. *)
Definition exact_percentage (done total : Z) : Z :=
  (200 * done + total) / (2 * total).

(** [childId] is the component's prop. *)
Variable childId : Z.

(** *** The mount effect (lines 101-118) *)

Definition run_start (st : State) : State := setLoading true st.

Definition run_settle (r : JsResult (list DailyTask)) (st : State) : State :=
  setLoading false
    match r with
    | Fulfilled dailyTasks => setError None (setTasks dailyTasks st)
    | Rejected _ =>
        setError
          (Some "Live backend unavailable. Showing demo data for executive preview.")
          (setTasks DEMO_TASKS st)
    end.

(** *** [onToggleTask] (lines 126-150) *)

(** [current.map((task) => (task.id === taskId ? { ...task, completed } : task))] *)
Definition mark (taskId : Z) (completed : bool) (current : list DailyTask)
  : list DailyTask :=
  map (fun task => if id task =? taskId then with_completed task completed else task)
      current.

(** [current.map((task) => (task.id === updated.id ? updated : task))] *)
Definition adopt (updated : DailyTask) (current : list DailyTask) : list DailyTask :=
  map (fun task => if id task =? id updated then updated else task) current.

(** What [onToggleTask] keeps across its [await]: the snapshot of line 127
    and the arguments of the call it waits for. *)
Record ToggleAwait := mkToggleAwait {
  previous : list DailyTask;
  call_taskId : Z;
  call_completed : bool
}.

(** Up to the [await] of line 143 (or to the [return] of line 134). *)
Definition onToggleTask_start (taskId : Z) (completed : bool) (st : State)
  : State * option ToggleAwait :=
  let previous := tasks st in
  if 1000 <=? taskId then
    (setTasks_from (mark taskId completed) st, None)
  else
    (setTasks_from (mark taskId completed) st,
     Some (mkToggleAwait previous taskId completed)).

(** From the moment [completeTask] settles, in the state of that moment. *)
Definition onToggleTask_settle (w : ToggleAwait) (r : JsResult DailyTask)
    (st : State) : State :=
  match r with
  | Fulfilled updated => setTasks_from (adopt updated) st
  | Rejected _ =>
      setError (Some "Could not update task status. Please try again.")
               (setTasks (previous w) st)
  end.

(** *** [onSubmit] (lines 152-175) *)

(** Up to the [await] of line 164; on the [return] of line 161 the
    [finally] block runs at once. *)
Definition onSubmit_start (st : State) : State * option SaveCheckinPayload :=
  let st1 := setError None (setSaveMessage None (setSaving true st)) in
  if existsb (fun task => 1000 <=? id task) (tasks st) then
    (setSaving false
       (setSaveMessage
          (Some "Demo check-in saved locally. Connect backend to persist.") st1),
     None)
  else
    (st1,
     Some {| checkin_child_id := childId;
             joy_score := joyScore st;
             parent_notes := parentNotes st |}).

(** [submitError instanceof Error ? submitError.message : 'Failed to save check-in'] *)
Definition message_of (submitError : Thrown) : string :=
  match submitError with
  | ErrorObject _ message => message
  | NotAnError => "Failed to save check-in"
  end.

Definition onSubmit_settle (r : JsResult unit) (st : State) : State :=
  setSaving false
    match r with
    | Fulfilled _ => setSaveMessage (Some "Saved joy score and notes successfully.") st
    | Rejected submitError => setError (Some (message_of submitError)) st
    end.

(** [disabled={saving}] on the submit button (line 262). *)
Definition submit_disabled (st : State) : bool := saving st.

(** *** A handler run to its end against a network

    The handler starts, the call it awaits runs, the handler resumes, with
    no other event in between. *)

Definition mount (net : Network) (log : list Request) (st : State)
  : list Request * State :=
  let st1 := run_start st in
  let (log1, r) := perform net log (fetchDailyPlan childId) in
  (log1, run_settle r st1).

Definition onToggleTask (net : Network) (log : list Request)
    (taskId : Z) (completed : bool) (st : State) : list Request * State :=
  match onToggleTask_start taskId completed st with
  | (st1, None) => (log, st1)
  | (st1, Some w) =>
      let (log1, r) := perform net log (completeTask (call_taskId w) (call_completed w)) in
      (log1, onToggleTask_settle w r st1)
  end.

Definition onSubmit (net : Network) (log : list Request) (st : State)
  : list Request * State :=
  match onSubmit_start st with
  | (st1, None) => (log, st1)
  | (st1, Some payload) =>
      let (log1, r) := perform net log (saveDailyCheckin payload) in
      (log1, onSubmit_settle r st1)
  end.

(** *** The mounted component as a transition system

    User events and settlements of the calls in flight, in any order.  A
    call in flight may settle in any way.  The prop [childId] stays the
    same while the component is mounted (the page passes the constant 1),
    so that the effect of lines 101-118 runs once, at the mount. *)

Inductive Pending :=
| AwaitPlan
| AwaitComplete (w : ToggleAwait)
| AwaitCheckin (payload : SaveCheckinPayload).

Record System := mkSystem {
  ui : State;
  inflight : list Pending
}.

Inductive Event :=
| ToggleChange (taskId : Z) (completed : bool)
| JoyInput (n : Z)
| NotesInput (s : string)
| SubmitClick
| PlanSettled (r : JsResult (list DailyTask))
| CompleteSettled (w : ToggleAwait) (r : JsResult DailyTask)
| CheckinSettled (payload : SaveCheckinPayload) (r : JsResult unit).

Definition spawn {A} (f : A -> Pending) (w : option A) : list Pending :=
  match w with
  | Some a => [f a]
  | None => []
  end.

Inductive step : System -> Event -> System -> Prop :=
| step_toggle st fl task completed :
    In task (tasks st) ->
    step (mkSystem st fl) (ToggleChange (id task) completed)
         (mkSystem (fst (onToggleTask_start (id task) completed st))
                   (fl ++ spawn AwaitComplete
                                (snd (onToggleTask_start (id task) completed st))))
| step_joy st fl n :
    step (mkSystem st fl) (JoyInput n) (mkSystem (setJoyScore n st) fl)
| step_notes st fl s :
    step (mkSystem st fl) (NotesInput s) (mkSystem (setParentNotes s st) fl)
| step_submit st fl :
    submit_disabled st = false ->
    step (mkSystem st fl) SubmitClick
         (mkSystem (fst (onSubmit_start st))
                   (fl ++ spawn AwaitCheckin (snd (onSubmit_start st))))
| step_plan st fl1 fl2 r :
    step (mkSystem st (fl1 ++ AwaitPlan :: fl2)) (PlanSettled r)
         (mkSystem (run_settle r st) (fl1 ++ fl2))
| step_complete st fl1 fl2 w r :
    step (mkSystem st (fl1 ++ AwaitComplete w :: fl2)) (CompleteSettled w r)
         (mkSystem (onToggleTask_settle w r st) (fl1 ++ fl2))
| step_checkin st fl1 fl2 payload r :
    step (mkSystem st (fl1 ++ AwaitCheckin payload :: fl2)) (CheckinSettled payload r)
         (mkSystem (onSubmit_settle r st) (fl1 ++ fl2)).

(** The component right after its first render and the start of its effect. *)
Definition mounted : System := mkSystem (run_start initial_state) [AwaitPlan].

Inductive reachable : System -> Prop :=
| reachable_mounted : reachable mounted
| reachable_step sys ev sys' : reachable sys -> step sys ev sys' -> reachable sys'.

Definition is_checkin (p : Pending) : bool :=
  match p with
  | AwaitCheckin _ => true
  | _ => false
  end.

(** The number of checkin submissions whose call has not settled. *)
Definition submissions_outstanding (sys : System) : nat :=
  length (filter is_checkin (inflight sys)).

(** *** Sample networks and inputs *)

Definition unreadable : forall t, JsResult (body_of t) :=
  fun _ => Rejected (ErrorObject "SyntaxError" "Unexpected end of JSON input").

(** Every request is answered with the same status and no readable body. *)
Definition always_status (s : Z) : Network :=
  fun _ t _ => Fulfilled {| status := s; json := unreadable t |}.

(** No request reaches a server. *)
Definition offline : Network :=
  fun _ _ _ => Rejected (ErrorObject "TypeError" "Failed to fetch").

(** The plan of an unknown child is not found, and the profile request
    does not go through. *)
Definition profile_blocked : Network :=
  fun _ t req =>
    match method req with
    | GET => Fulfilled {| status := 404; json := unreadable t |}
    | POST => Rejected (ErrorObject "TypeError" "Failed to fetch")
    end.

Definition sample_task (n : Z) (c : bool) : DailyTask :=
  {| id := n; child_id := 1; pillar := Language; title := "Story Retell";
     description := "Read a short story.";
     duration_minutes := 25; difficulty_level := medium;
     completed := c; completion_timestamp := null;
     date_assigned := "2024-05-01" |}.

(** A server that accepts everything: an empty plan, the task of a
    completion request marked as asked and stamped, an empty checkin reply. *)
Definition confirmed_task (req : Request) : DailyTask :=
  match body req with
  | Some (JObj [(_, JNum n); (_, JBool c)]) =>
      {| id := n; child_id := 1; pillar := Language; title := "Story Retell";
         description := "Read a short story.";
         duration_minutes := 25; difficulty_level := medium;
         completed := c; completion_timestamp := present "2024-05-01T09:30:00";
         date_assigned := "2024-05-01" |}
  | _ => sample_task 0 false
  end.

Definition accepting : Network :=
  fun _ t req =>
    match t return JsResult (Response t) with
    | TTasks => Fulfilled {| status := 200; json := Fulfilled ([] : body_of TTasks) |}
    | TTask => Fulfilled {| status := 200;
                            json := Fulfilled (confirmed_task req : body_of TTask) |}
    | TIgnored => Fulfilled {| status := 200; json := Fulfilled (tt : body_of TIgnored) |}
    end.

(** A server that knows the plan of five tasks, confirms the completion
    of task 3 and refuses every other completion. *)
Definition scenario_server (plan : list DailyTask) : Network :=
  fun _ t req =>
    match t return JsResult (Response t) with
    | TTasks => Fulfilled {| status := 200; json := Fulfilled (plan : body_of TTasks) |}
    | TTask =>
        match body req with
        | Some (JObj [(_, JNum 3); _]) =>
            Fulfilled {| status := 200;
                         json := Fulfilled (confirmed_task req : body_of TTask) |}
        | _ => Fulfilled {| status := 500; json := unreadable TTask |}
        end
    | TIgnored => Fulfilled {| status := 200; json := Fulfilled (tt : body_of TIgnored) |}
    end.

(** A stand-in for the engine's printing beyond the safe integers; the
    sample inputs stay within them. *)
Definition sample_engine : Engine :=
  {| Number_toString_beyond := fun _ => "1e+21" |}.

(** The default of [API_BASE_URL] (line 7). *)
Definition localhost : string := "http://localhost:8000".

(** A plan of five tasks from the server, two of them completed, on
    screen with a joy score and notes typed in. *)
Definition live_tasks : list DailyTask :=
  [sample_task 1 true; sample_task 2 false; sample_task 3 false;
   sample_task 4 true; sample_task 5 false].

Definition live_state : State :=
  {| tasks := live_tasks; loading := false; error := None;
     joyScore := 4; parentNotes := "great day";
     saving := false; saveMessage := None |}.

(** Forty tasks, numbered from 1, of which the first twenty-three are done. *)
Definition forty_tasks : list DailyTask :=
  map (fun n => sample_task (Z.of_nat n) (n <=? 23)%nat) (seq 1 40).

(** *** Notions the properties are stated with *)

(** The requests one invocation adds to the log. *)
Definition issued {A} (net : Network) (log : list Request) (p : Async A)
  : list Request :=
  skipn (length log) (fst (perform net log p)).

(** A network that answers a request the same way whatever was requested
    before. *)
Definition history_independent (net : Network) : Prop :=
  forall log log' t req, net log t req = net log' t req.

(** An invocation is single-shot when, against every network, it issues
    exactly one request. *)
Definition single_shot {A} (p : Async A) : Prop :=
  forall net log, length (issued net log p) = 1%nat.

(** The recovery of [fetchDailyPlan] as the specification words it: after
    a not-found answer, one profile request, then one retry. *)
Definition recovers_with_one_retry (net : Network) (child : Z) : Prop :=
  forall response,
    net [] TTasks (plan_request child) = Fulfilled response ->
    status response = 404 ->
    issued net [] (fetchDailyPlan child)
    = [plan_request child; profile_request; plan_request child].

Definition is_post (req : Request) : bool :=
  match method req with
  | POST => true
  | GET => false
  end.

(** [fetchDailyPlan], one case per path through lines 48-71. *)
Inductive PlanPath (net : Network) (log : list Request) (child : Z)
  : list Request * JsResult (list DailyTask) -> Prop :=
| plan_unreachable e :
    net log TTasks (plan_request child) = Rejected e ->
    PlanPath net log child ((log ++ [plan_request child])%list, Rejected e)
| plan_ok response :
    net log TTasks (plan_request child) = Fulfilled response ->
    ok response = true ->
    PlanPath net log child ((log ++ [plan_request child])%list, json response)
| plan_refused response :
    net log TTasks (plan_request child) = Fulfilled response ->
    ok response = false -> status response <> 404 ->
    PlanPath net log child
      ((log ++ [plan_request child])%list,
       Rejected (new_Error "Failed to fetch daily plan"))
| plan_bootstrap_unreachable response e :
    net log TTasks (plan_request child) = Fulfilled response ->
    status response = 404 ->
    net (log ++ [plan_request child])%list TIgnored profile_request = Rejected e ->
    PlanPath net log child
      ((log ++ [plan_request child; profile_request])%list, Rejected e)
| plan_retry_unreachable response created e :
    net log TTasks (plan_request child) = Fulfilled response ->
    status response = 404 ->
    net (log ++ [plan_request child])%list TIgnored profile_request
      = Fulfilled created ->
    net (log ++ [plan_request child; profile_request])%list
        TTasks (plan_request child) = Rejected e ->
    PlanPath net log child
      ((log ++ [plan_request child; profile_request; plan_request child])%list,
       Rejected e)
| plan_retry_ok response created retry :
    net log TTasks (plan_request child) = Fulfilled response ->
    status response = 404 ->
    net (log ++ [plan_request child])%list TIgnored profile_request
      = Fulfilled created ->
    net (log ++ [plan_request child; profile_request])%list
        TTasks (plan_request child) = Fulfilled retry ->
    ok retry = true ->
    PlanPath net log child
      ((log ++ [plan_request child; profile_request; plan_request child])%list,
       json retry)
| plan_retry_refused response created retry :
    net log TTasks (plan_request child) = Fulfilled response ->
    status response = 404 ->
    net (log ++ [plan_request child])%list TIgnored profile_request
      = Fulfilled created ->
    net (log ++ [plan_request child; profile_request])%list
        TTasks (plan_request child) = Fulfilled retry ->
    ok retry = false ->
    PlanPath net log child
      ((log ++ [plan_request child; profile_request; plan_request child])%list,
       Rejected (new_Error "Failed to fetch daily plan")).

(** Line 123 on the two counts. *)
Definition percentage_of_counts (done total : nat) : spec_float :=
  Math_round
    (Number_mul
       (Number_div (Number_of_Z (Z.of_nat done)) (Number_of_Z (Z.of_nat total)))
       (Number_of_Z 100)).

Definition spec_float_eqb (x y : spec_float) : bool :=
  match x, y with
  | S754_zero a, S754_zero b => Bool.eqb a b
  | S754_infinity a, S754_infinity b => Bool.eqb a b
  | S754_nan, S754_nan => true
  | S754_finite s m e, S754_finite s' m' e' =>
      Bool.eqb s s' && Pos.eqb m m' && Z.eqb e e'
  | _, _ => false
  end.

(** The code and the exact formula give the same percentage for [done]
    tasks completed out of [total]. *)
Definition agrees (total done : nat) : bool :=
  spec_float_eqb (percentage_of_counts done total)
                 (Number_of_Z (exact_percentage (Z.of_nat done) (Z.of_nat total))).

Definition done_count (tasks : list DailyTask) : nat :=
  length (filter (fun task => completed task) tasks).

(** The submission as the specification words it: one POST that carries
    the joy score and the notes. *)
Definition checkin_posts (net : Network) (st : State) : Prop :=
  exists post,
    fst (onSubmit net [] st) = [post]
    /\ method post = POST
    /\ body post = Some (JObj [("joy_score", JNum (joyScore st));
                               ("parent_notes", JStr (parentNotes st))]).

(** The demo collection on screen, joy score 4 and notes typed in. *)
Definition demo_preview : State :=
  {| tasks := DEMO_TASKS; loading := false;
     error := Some "Live backend unavailable. Showing demo data for executive preview.";
     joyScore := 4; parentNotes := "great day";
     saving := false; saveMessage := None |}.

(** *** The plan fetch before the bootstrap was added

    The earlier revision of [api.ts] kept with the sources (after the
    component in [DailyChecklist.tsx], lines 317-328 there): one request,
    and the error on any status that is not a success. *)
Definition legacy_fetchDailyPlan (child : Z) : Async (list DailyTask) :=
  (response <- fetch TTasks (plan_request child) ;;
   if negb (ok response) then Throw (new_Error "Failed to fetch daily plan")
   else response_json response)%async.

(** *** Calls in flight, by kind *)

Definition is_plan (p : Pending) : bool :=
  match p with
  | AwaitPlan => true
  | _ => false
  end.

Definition is_complete (p : Pending) : bool :=
  match p with
  | AwaitComplete _ => true
  | _ => false
  end.

(** The number of plan fetches that have not settled. *)
Definition plan_fetches (sys : System) : nat :=
  length (filter is_plan (inflight sys)).

(** What holds of the calls in flight while the component is mounted: a
    plan fetch is in flight exactly while [loading] is set; until it
    settles the collection is empty and no completion call is in flight;
    and the snapshot of every completion call in flight has the
    identifiers of the collection, in its order. *)
Definition Stable (sys : System) : Prop :=
  plan_fetches sys = (if loading (ui sys) then 1 else 0)%nat
  /\ (loading (ui sys) = true ->
      tasks (ui sys) = []
      /\ forall w, ~ In (AwaitComplete w) (inflight sys))
  /\ (forall w,
         In (AwaitComplete w) (inflight sys) ->
         map id (previous w) = map id (tasks (ui sys))).

(** Any number of steps. *)
Inductive evolves : System -> System -> Prop :=
| evolves_refl sys : evolves sys sys
| evolves_step sys ev sys1 sys2 :
    evolves sys sys1 -> step sys1 ev sys2 -> evolves sys sys2.

(** The joy score slider is a range input with [min={1}], [max={5}] and
    [step={1}] (lines 237-243): the values it reports are whole numbers
    from 1 to 5. *)
Definition from_the_slider (ev : Event) : Prop :=
  match ev with
  | JoyInput n => 1 <= n <= 5
  | _ => True
  end.

(** The states the component reaches when the joy score only comes from
    the slider. *)
Inductive reachable_with_slider : System -> Prop :=
| slider_mounted : reachable_with_slider mounted
| slider_step sys ev sys' :
    reachable_with_slider sys -> from_the_slider ev -> step sys ev sys' ->
    reachable_with_slider sys'.

(** ** The dashboard charts ([DashboardCharts.tsx]) *)

Definition Number_sub : spec_float -> spec_float -> spec_float := SFsub 53 1024.

(** [Math.max] of two numbers: NaN if either is NaN, and a positive zero
    is larger than a negative one. *)
Definition Math_max (x y : spec_float) : spec_float :=
  match x, y with
  | S754_nan, _ | _, S754_nan => S754_nan
  | S754_zero sx, S754_zero sy => S754_zero (sx && sy)
  | _, _ => if SFltb x y then y else x
  end.

(** [x ?? d] *)
Definition nullish {A} (x : Optional A) (d : A) : A :=
  match x with
  | present a => a
  | _ => d
  end.

(** Lines 25-42.  A field that the code reads through [?.] or [??] may be
    missing or [null] in what the server sends. *)
Record WeeklyProgressPoint := mkWeeklyPoint {
  day : string;
  day_completion : spec_float
}.

Record PillarDistributionPoint := mkPillarPoint {
  point_pillar : Pillar;
  value : spec_float
}.

Record DifficultyTrendPoint := mkDifficultyPoint {
  date : string;
  difficulty_score : spec_float
}.

Record TodayCompletionResponse := mkToday {
  completion : Optional spec_float
}.

(** What [weeklyRes.json()] yields: [null], or a value with its [today]
    and [weekly] properties. *)
Inductive WeeklyJson :=
| weekly_null
| weekly_value (today_field : Optional TodayCompletionResponse)
               (weekly_field : Optional (list WeeklyProgressPoint)).

Record ChartResponse (B : Type) := mkChartResponse {
  chart_status : Z;
  chart_json : JsResult B
}.
Arguments chart_status {B} _.
Arguments chart_json {B} _.

Definition chart_ok {B} (r : ChartResponse B) : bool :=
  (200 <=? chart_status r) && (chart_status r <=? 299).

(** The [useState] cells of lines 55-60. *)
Record ChartsState := mkChartsState {
  todayCompletion : spec_float;
  weeklyData : list WeeklyProgressPoint;
  pillarData : list PillarDistributionPoint;
  difficultyData : list DifficultyTrendPoint;
  charts_loading : bool;
  charts_error : option string
}.

Definition charts_initial : ChartsState :=
  {| todayCompletion := Number_of_Z 0; weeklyData := []; pillarData := [];
     difficultyData := []; charts_loading := true; charts_error := None |}.

(** The three fetches of lines 68-72, by the place of each in the array
    given to [Promise.all]. *)
Inductive Slot := WeeklySlot | PillarSlot | DifficultySlot.

Definition JsResult_bind {A B} (r : JsResult A) (f : A -> JsResult B) : JsResult B :=
  match r with
  | Fulfilled a => f a
  | Rejected e => Rejected e
  end.

Definition rejection {A} (r : JsResult A) : option Thrown :=
  match r with
  | Fulfilled _ => None
  | Rejected e => Some e
  end.

Fixpoint first_rejection {A B C} (order : list Slot)
    (w : JsResult A) (p : JsResult B) (d : JsResult C) : option Thrown :=
  match order with
  | [] => None
  | slot :: rest =>
      match match slot with
            | WeeklySlot => rejection w
            | PillarSlot => rejection p
            | DifficultySlot => rejection d
            end with
      | Some e => Some e
      | None => first_rejection rest w p d
      end
  end.

(** [Promise.all] of three promises: the three values, or the reason of
    the promise that rejects first; [arrival] is the order in which the
    promises settle. *)
Definition Promise_all {A B C} (arrival : list Slot)
    (w : JsResult A) (p : JsResult B) (d : JsResult C) : JsResult (A * B * C) :=
  match w, p, d with
  | Fulfilled a, Fulfilled b, Fulfilled c => Fulfilled (a, b, c)
  | _, _, _ =>
      match first_rejection (arrival ++ [WeeklySlot; PillarSlot; DifficultySlot])%list
                            w p d with
      | Some e => Rejected e
      | None => Rejected NotAnError
      end
  end.

(** An answer with a status and a body that reads as [b]. *)
Definition chart_reply {B} (s : Z) (b : B) : ChartResponse B :=
  {| chart_status := s; chart_json := Fulfilled b |}.

(** The component once the plan of five tasks has arrived. *)
Definition loaded : System := mkSystem live_state [].

(** The message with which the engine refuses to read a property of
    [null]. *)
Variable null_read_message : string.

(** [fetchError instanceof Error ? fetchError.message : 'Unable to load charts'] *)
Definition chart_message_of (fetchError : Thrown) : string :=
  match fetchError with
  | ErrorObject _ message => message
  | NotAnError => "Unable to load charts"
  end.

(** Lines 65-66. *)
Definition loadDashboardData_start (st : ChartsState) : ChartsState :=
  {| todayCompletion := todayCompletion st; weeklyData := weeklyData st;
     pillarData := pillarData st; difficultyData := difficultyData st;
     charts_loading := true; charts_error := None |}.

(** Lines 68-88, from the three settled fetches to the four cells to
    store, or to what is thrown. *)
Definition loadDashboardData_try (arrival : list Slot)
    (weeklyRes : JsResult (ChartResponse WeeklyJson))
    (pillarRes : JsResult (ChartResponse (Optional (list PillarDistributionPoint))))
    (difficultyRes : JsResult (ChartResponse (Optional (list DifficultyTrendPoint))))
  : JsResult (spec_float * list WeeklyProgressPoint
              * list PillarDistributionPoint * list DifficultyTrendPoint) :=
  JsResult_bind (Promise_all arrival weeklyRes pillarRes difficultyRes)
    (fun '(weeklyRes, pillarRes, difficultyRes) =>
       if negb (chart_ok weeklyRes) || negb (chart_ok pillarRes)
          || negb (chart_ok difficultyRes)
       then Rejected (new_Error "Failed to fetch dashboard analytics")
       else
         JsResult_bind (chart_json weeklyRes) (fun weeklyJson =>
         JsResult_bind (chart_json pillarRes) (fun pillarJson =>
         JsResult_bind (chart_json difficultyRes) (fun difficultyJson =>
           match weeklyJson with
           | weekly_null => Rejected (ErrorObject "TypeError" null_read_message)
           | weekly_value today_field weekly_field =>
               Fulfilled
                 (nullish match today_field with
                          | present t => completion t
                          | absent => absent
                          | null => absent
                          end (Number_of_Z 0),
                  nullish weekly_field [],
                  nullish pillarJson [],
                  nullish difficultyJson [])
           end)))).

(** Lines 89-93 on the outcome of the [try] block. *)
Definition loadDashboardData_settle (arrival : list Slot)
    (weeklyRes : JsResult (ChartResponse WeeklyJson))
    (pillarRes : JsResult (ChartResponse (Optional (list PillarDistributionPoint))))
    (difficultyRes : JsResult (ChartResponse (Optional (list DifficultyTrendPoint))))
    (st : ChartsState) : ChartsState :=
  match loadDashboardData_try arrival weeklyRes pillarRes difficultyRes with
  | Fulfilled (today_value, weekly, pillars, difficulties) =>
      {| todayCompletion := today_value; weeklyData := weekly;
         pillarData := pillars; difficultyData := difficulties;
         charts_loading := false; charts_error := charts_error st |}
  | Rejected fetchError =>
      {| todayCompletion := todayCompletion st; weeklyData := weeklyData st;
         pillarData := pillarData st; difficultyData := difficultyData st;
         charts_loading := false;
         charts_error := Some (chart_message_of fetchError) |}
  end.

(** The effect of lines 62-96 from start to end. *)
Definition loadDashboardData (arrival : list Slot)
    (weeklyRes : JsResult (ChartResponse WeeklyJson))
    (pillarRes : JsResult (ChartResponse (Optional (list PillarDistributionPoint))))
    (difficultyRes : JsResult (ChartResponse (Optional (list DifficultyTrendPoint))))
    (st : ChartsState) : ChartsState :=
  loadDashboardData_settle arrival weeklyRes pillarRes difficultyRes
    (loadDashboardData_start st).

(** Lines 98-104. *)
Definition circleData (todayCompletion : spec_float) : list (string * spec_float) :=
  [("Completed", todayCompletion);
   ("Remaining", Math_max (Number_of_Z 0)
                          (Number_sub (Number_of_Z 100) todayCompletion))].

(** [100 - c] agrees with the integers for the percentage [c]. *)
Definition remaining_agrees (c : nat) : bool :=
  spec_float_eqb
    (Math_max (Number_of_Z 0)
              (Number_sub (Number_of_Z 100) (Number_of_Z (Z.of_nat c))))
    (Number_of_Z (100 - Z.of_nat c)).

(** ** Properties of the API client *)

(** An invocation only adds requests to the log. *)
Lemma perform_extends {A} (net : Network) (p : Async A) :
  forall log, exists issued, fst (perform net log p) = (log ++ issued)%list.
Proof.
  induction p as [a | e | t req k IH]; intros log; simpl.
  - exists []. now rewrite app_nil_r.
  - exists []. now rewrite app_nil_r.
  - destruct (net log t req) as [r | e].
    + destruct (IH r (log ++ [req])%list) as [issued E].
      exists (req :: issued). rewrite E, <- app_assoc. reflexivity.
    + exists [req]. reflexivity.
Qed.

Lemma ok_404 {t} (r : Response t) : status r = 404 -> ok r = false.
Proof. unfold ok. intros ->. reflexivity. Qed.

Lemma perform_response_json {t} net log (r : Response t) :
  perform net log (response_json r) = (log, json r).
Proof. unfold response_json. destruct (json r); reflexivity. Qed.

Lemma fetchDailyPlan_paths net log child :
  PlanPath net log child (perform net log (fetchDailyPlan child)).
Proof.
  unfold fetchDailyPlan. cbn.
  destruct (net log TTasks (plan_request child)) as [response | e] eqn:E1.
  2: { now apply plan_unreachable. }
  cbn. destruct (ok response) eqn:Hok.
  { rewrite (perform_response_json net _ response). now apply plan_ok. }
  destruct (status response =? 404) eqn:H404.
  2: { cbn. apply Z.eqb_neq in H404. now apply plan_refused with response. }
  apply Z.eqb_eq in H404. cbn.
  destruct (net (log ++ [plan_request child])%list TIgnored profile_request)
    as [created | e] eqn:E2.
  2: { rewrite <- ?app_assoc. cbn. now apply plan_bootstrap_unreachable with response. }
  cbn. rewrite <- ?app_assoc. cbn.
  destruct (net (log ++ [plan_request child; profile_request])%list TTasks
                (plan_request child)) as [retry | e] eqn:E3.
  2: { rewrite <- ?app_assoc. cbn.
       now apply plan_retry_unreachable with response created. }
  cbn. rewrite <- ?app_assoc. cbn. destruct (ok retry) eqn:Hok2.
  - rewrite (perform_response_json net _ retry). now apply plan_retry_ok with response created.
  - cbn. now apply plan_retry_refused with response created retry.
Qed.

Lemma issued_app {A} net log (p : Async A) l :
  fst (perform net log p) = (log ++ l)%list -> issued net log p = l.
Proof.
  unfold issued. intros ->. rewrite skipn_app, skipn_all, Nat.sub_diag. reflexivity.
Qed.

Ltac same_answer :=
  repeat match goal with
    | H1 : ?net ?l ?t ?r = _, H2 : ?net ?l ?t ?r = _ |- _ =>
        rewrite H1 in H2; inversion H2; subst; clear H2
    | H1 : status ?r = 404, H2 : ok ?r = true |- _ =>
        rewrite (ok_404 r H1) in H2; discriminate H2
    end.

Lemma fetchDailyPlan_issued net log child :
  exists more,
    issued net log (fetchDailyPlan child) = plan_request child :: more
    /\ (more = [] \/ more = [profile_request]
        \/ more = [profile_request; plan_request child])
    /\ (more <> [] ->
        exists response,
          net log TTasks (plan_request child) = Fulfilled response
          /\ status response = 404).
Proof.
  pose proof (fetchDailyPlan_paths net log child) as P.
  remember (perform net log (fetchDailyPlan child)) as out eqn:H.
  destruct P;
    (eexists; split;
     [ apply issued_app; rewrite <- H; cbn [fst]; reflexivity
     | split; [ auto | intros N; try (now contradiction N); eauto ] ]).
Qed.

(** Splits on the path [fetchDailyPlan] takes, leaving in each case the
    equation [Hrun] between the result of that path and the run. *)
Ltac plan_path net log child Hrun :=
  let P := fresh "P" in
  let out := fresh "out" in
  pose proof (fetchDailyPlan_paths net log child) as P;
  remember (perform net log (fetchDailyPlan child)) as out eqn:Hrun;
  destruct P; same_answer; try congruence.

Ltac from_run Hrun :=
  first [ reflexivity
        | apply issued_app; rewrite <- Hrun; reflexivity
        | rewrite <- Hrun; reflexivity ].

(** C2 (amended).  When the plan fetch answers not-found, [fetchDailyPlan]
    issues one profile-creation request with the fixed placeholder fields;
    if that request is answered (with any status) exactly one retry of the
    plan fetch follows, and if it is rejected [fetchDailyPlan] rejects with
    that rejection and does not retry.  A retry answered with a non-success
    status, and a first answer with any other non-success status, end in
    the error [Failed to fetch daily plan]; a rejected retry ends in its
    rejection.  No invocation issues more than three requests, of which at
    most one is a profile creation. *)
Theorem fetchDailyPlan_bootstrap_retry (net : Network) log child :
  let plan := plan_request child in
  let call := fetchDailyPlan child in
  (forall response,
      net log TTasks plan = Fulfilled response -> status response = 404 ->
      (forall e,
          net (log ++ [plan])%list TIgnored profile_request = Rejected e ->
          issued net log call = [plan; profile_request]
          /\ snd (perform net log call) = Rejected e)
      /\ (forall created,
             net (log ++ [plan])%list TIgnored profile_request = Fulfilled created ->
             issued net log call = [plan; profile_request; plan]
             /\ (forall retry,
                    net (log ++ [plan; profile_request])%list TTasks plan
                      = Fulfilled retry ->
                    snd (perform net log call)
                    = if ok retry then json retry
                      else Rejected (new_Error "Failed to fetch daily plan"))
             /\ (forall e,
                    net (log ++ [plan; profile_request])%list TTasks plan
                      = Rejected e ->
                    snd (perform net log call) = Rejected e)))
  /\ (forall response,
         net log TTasks plan = Fulfilled response ->
         ok response = false -> status response <> 404 ->
         issued net log call = [plan]
         /\ snd (perform net log call)
            = Rejected (new_Error "Failed to fetch daily plan"))
  /\ (length (issued net log call) <= 3)%nat
  /\ (length (filter is_post (issued net log call)) <= 1)%nat.
Proof.
  intros plan call. subst plan call.
  split; [intros response E1 H404; split | split; [| split]].
  - intros e E2. split; plan_path net log child Hrun; from_run Hrun.
  - intros created E2. split; [| split].
    + plan_path net log child Hrun; from_run Hrun.
    + intros retry E3. plan_path net log child Hrun;
        match goal with H : ok _ = _ |- _ => rewrite H end; from_run Hrun.
    + intros e E3. plan_path net log child Hrun. from_run Hrun.
  - intros response E1 Hok Hs. split; plan_path net log child Hrun; from_run Hrun.
  - destruct (fetchDailyPlan_issued net log child) as (more & -> & [-> | [-> | ->]] & _);
      simpl; lia.
  - destruct (fetchDailyPlan_issued net log child) as (more & -> & [-> | [-> | ->]] & _);
      simpl; lia.
Qed.

Lemma perform_completeTask net log taskId completed :
  perform net log (completeTask taskId completed) =
  ((log ++ [complete_request taskId completed])%list,
   match net log TTask (complete_request taskId completed) with
   | Fulfilled response =>
       if ok response then json response
       else Rejected (new_Error "Failed to update task status")
   | Rejected e => Rejected e
   end).
Proof.
  unfold completeTask. cbn.
  destruct (net log TTask (complete_request taskId completed)) as [response | e];
    [| reflexivity].
  cbn. destruct (ok response); cbn; [| reflexivity].
  apply (perform_response_json net _ response).
Qed.

Lemma perform_saveDailyCheckin net log payload :
  perform net log (saveDailyCheckin payload) =
  ((log ++ [checkin_request payload])%list,
   match net log TIgnored (checkin_request payload) with
   | Fulfilled response =>
       if ok response then Fulfilled tt
       else Rejected (new_Error "Failed to save joy score and parent notes")
   | Rejected e => Rejected e
   end).
Proof.
  unfold saveDailyCheckin. cbn.
  destruct (net log TIgnored (checkin_request payload)) as [response | e];
    [| reflexivity].
  cbn. destruct (ok response); reflexivity.
Qed.

(** An invocation only looks at the answers when the network answers a
    request the same way whatever was requested before. *)
Lemma perform_history_independent {A} (net : Network) (p : Async A) :
  history_independent net ->
  forall log log',
    issued net log' p = issued net log p
    /\ snd (perform net log' p) = snd (perform net log p).
Proof.
  intros Hnet.
  assert (G : forall log, exists more,
               perform net log p = ((log ++ more)%list, snd (perform net [] p))
               /\ more = issued net [] p).
  { unfold issued. cbn [length skipn].
    induction p as [a | e | t req k IH]; intros log; cbn.
    - exists []. now rewrite app_nil_r.
    - exists []. now rewrite app_nil_r.
    - rewrite (Hnet log [] t req).
      destruct (net [] t req) as [r | e]; cbn.
      + destruct (IH r (log ++ [req])%list) as (more & E & Hmore).
        destruct (IH r [req]) as (more' & E' & Hmore').
        rewrite E, E'. cbn. exists (req :: more).
        rewrite <- app_assoc. split; [reflexivity |]. congruence.
      + exists [req]. now split. }
  intros log log'.
  destruct (G log) as (more & E & Hmore), (G log') as (more' & E' & Hmore').
  split.
  - rewrite (issued_app net log' p more'), (issued_app net log p more);
      [congruence | now rewrite E | now rewrite E'].
  - now rewrite E, E'.
Qed.

(** C7 (amended).  Every invocation of [completeTask] and of
    [saveDailyCheckin] issues exactly one request.  An invocation of
    [fetchDailyPlan] issues exactly one request unless the first answer is
    not-found; then it issues the profile-creation request as well and,
    when that request is answered, exactly one retry: never more than
    three requests in all.  Nothing is cached: every plan request is sent
    with [cache: 'no-store'], and against a network that answers a request
    the same way whatever was requested before, an invocation made after
    any others issues the same requests and settles the same way as the
    first.  An [Async] value has no access to the component's state: what
    an operation does is the requests it adds to the log. *)
Theorem client_network_calls :
  (forall taskId completed, single_shot (completeTask taskId completed))
  /\ (forall taskId completed net log,
         issued net log (completeTask taskId completed)
         = [complete_request taskId completed])
  /\ (forall payload, single_shot (saveDailyCheckin payload))
  /\ (forall payload net log,
         issued net log (saveDailyCheckin payload) = [checkin_request payload])
  /\ (forall child (net : Network) log,
         let plan := plan_request child in
         let calls := issued net log (fetchDailyPlan child) in
         ((forall response,
              net log TTasks plan = Fulfilled response ->
              status response <> 404) ->
          calls = [plan])
         /\ (forall response,
                net log TTasks plan = Fulfilled response ->
                status response = 404 ->
                (forall e,
                    net (log ++ [plan])%list TIgnored profile_request = Rejected e ->
                    calls = [plan; profile_request])
                /\ (forall created,
                       net (log ++ [plan])%list TIgnored profile_request
                         = Fulfilled created ->
                       calls = [plan; profile_request; plan]))
         /\ (length calls <= 3)%nat
         /\ Forall (fun req => method req = GET -> cache req = Some no_store) calls)
  /\ (forall net log log',
         history_independent net ->
         (forall child,
             issued net log' (fetchDailyPlan child)
             = issued net log (fetchDailyPlan child)
             /\ snd (perform net log' (fetchDailyPlan child))
                = snd (perform net log (fetchDailyPlan child)))
         /\ (forall taskId completed,
                issued net log' (completeTask taskId completed)
                = issued net log (completeTask taskId completed)
                /\ snd (perform net log' (completeTask taskId completed))
                   = snd (perform net log (completeTask taskId completed)))
         /\ (forall payload,
                issued net log' (saveDailyCheckin payload)
                = issued net log (saveDailyCheckin payload)
                /\ snd (perform net log' (saveDailyCheckin payload))
                   = snd (perform net log (saveDailyCheckin payload)))).
Proof.
  assert (C : forall taskId completed net log,
             issued net log (completeTask taskId completed)
             = [complete_request taskId completed]).
  { intros. apply issued_app. now rewrite perform_completeTask. }
  assert (S : forall payload net log,
             issued net log (saveDailyCheckin payload) = [checkin_request payload]).
  { intros. apply issued_app. now rewrite perform_saveDailyCheckin. }
  split; [| split; [exact C | split; [| split; [exact S | split]]]].
  - intros taskId completed net log. now rewrite C.
  - intros payload net log. now rewrite S.
  - intros child net log plan calls. subst plan calls.
    split; [| split; [| split]].
    + intros Hnot. plan_path net log child Hrun; try from_run Hrun;
        match goal with
        | E : net log TTasks _ = Fulfilled ?r, H : status ?r = 404 |- _ =>
            now destruct (Hnot r E)
        end.
    + intros response E1 H404. split.
      * intros e E2. plan_path net log child Hrun. from_run Hrun.
      * intros created E2. plan_path net log child Hrun; from_run Hrun.
    + destruct (fetchDailyPlan_issued net log child)
        as (more & -> & [-> | [-> | ->]] & _); simpl; lia.
    + destruct (fetchDailyPlan_issued net log child)
        as (more & -> & [-> | [-> | ->]] & _);
        repeat constructor; cbn; intros; congruence.
  - intros net log log' Hnet. split; [| split]; intros;
      now apply perform_history_independent.
Qed.

(** ** Properties of the checklist component *)

(** *** Completion percentage *)

Lemma spec_float_eqb_eq x y : spec_float_eqb x y = true -> x = y.
Proof.
  destruct x as [a | a | | s m e], y as [b | b | | s' m' e']; simpl;
    try discriminate; try reflexivity.
  - intros H. apply Bool.eqb_prop in H. now subst.
  - intros H. apply Bool.eqb_prop in H. now subst.
  - intros H. apply andb_prop in H as [H He]. apply andb_prop in H as [Hs Hm].
    apply Bool.eqb_prop in Hs. apply Pos.eqb_eq in Hm. apply Z.eqb_eq in He.
    now subst.
Qed.

Lemma completionPercentage_counts tasks :
  completionPercentage tasks =
  if (length tasks =? 0)%nat then Number_of_Z 0
  else percentage_of_counts (done_count tasks) (length tasks).
Proof. reflexivity. Qed.

Lemma done_count_le tasks : (done_count tasks <= length tasks)%nat.
Proof. apply filter_length_le. Qed.

(** For an empty collection the percentage is 0: line 121 returns before
    the division. *)
Lemma completionPercentage_empty : completionPercentage [] = Number_of_Z 0.
Proof. reflexivity. Qed.

Lemma agrees_below_40 :
  forallb (fun total => forallb (agrees total) (seq 0 (S total))) (seq 1 39) = true.
Proof. vm_compute. reflexivity. Qed.

(** For a collection of one to thirty-nine tasks the code gives the
    percentage of the exact formula. *)
Lemma completionPercentage_small tasks :
  (0 < length tasks < 40)%nat ->
  completionPercentage tasks =
  Number_of_Z (exact_percentage (Z.of_nat (done_count tasks))
                                (Z.of_nat (length tasks))).
Proof.
  intros [Hpos Hlt]. rewrite completionPercentage_counts.
  destruct (Nat.eqb_spec (length tasks) 0) as [E | _]; [lia |].
  pose proof agrees_below_40 as A. rewrite forallb_forall in A.
  specialize (A (length tasks)). rewrite forallb_forall in A.
  apply spec_float_eqb_eq, A.
  - apply in_seq. lia.
  - apply in_seq. pose proof (done_count_le tasks). lia.
Qed.

(** C3.  With forty tasks of which twenty-three are completed, the exact
    formula gives 58 (57.5 rounded to the nearest integer, the tie going
    up), and line 123 gives 57: the quotient 23/40 and its product by 100
    are each rounded to binary64, and the product falls just below 57.5. *)
Theorem completionPercentage_forty_tasks :
  length forty_tasks = 40%nat
  /\ done_count forty_tasks = 23%nat
  /\ NoDup (map id forty_tasks)
  /\ exact_percentage 23 40 = 58
  /\ Number_mul (Number_div (Number_of_Z 23) (Number_of_Z 40)) (Number_of_Z 100)
     = S754_finite false 8092405580431359 (-47)
  /\ completionPercentage forty_tasks = Number_of_Z 57.
Proof.
  repeat split; try (vm_compute; reflexivity).
  unfold forty_tasks. rewrite map_map. cbn [id sample_task].
  apply Injective_map_NoDup; [| apply seq_NoDup].
  intros a b. apply Nat2Z.inj.
Qed.

(** *** The mount effect *)

(** C8.  When the plan fetch of the mount effect rejects, for whatever
    reason, the collection becomes the five demo tasks, of which two are
    completed and which display as 40%, the error message announces that
    the live backend is unavailable, and loading is over. *)
Theorem plan_failure_shows_demo net log st e :
  snd (perform net log (fetchDailyPlan childId)) = Rejected e ->
  let st' := snd (mount net log st) in
  tasks st' = DEMO_TASKS
  /\ length (tasks st') = 5%nat
  /\ done_count (tasks st') = 2%nat
  /\ completionPercentage (tasks st') = Number_of_Z 40
  /\ error st'
     = Some "Live backend unavailable. Showing demo data for executive preview."
  /\ loading st' = false.
Proof.
  intros H. unfold mount.
  destruct (perform net log (fetchDailyPlan childId)) as [log1 r].
  cbn in H. subst r. cbn. repeat split; vm_compute; reflexivity.
Qed.

(** *** Toggling a task *)

Lemma nth_error_mark taskId c current i :
  nth_error (mark taskId c current) i =
  option_map (fun task => if id task =? taskId then with_completed task c else task)
             (nth_error current i).
Proof. unfold mark. apply nth_error_map. Qed.

Lemma nth_error_adopt updated current i :
  nth_error (adopt updated current) i =
  option_map (fun task => if id task =? id updated then updated else task)
             (nth_error current i).
Proof. unfold adopt. apply nth_error_map. Qed.

Lemma onToggleTask_start_state taskId c st :
  fst (onToggleTask_start taskId c st) = setTasks_from (mark taskId c) st.
Proof. unfold onToggleTask_start. destruct (1000 <=? taskId); reflexivity. Qed.

Lemma onToggleTask_start_await taskId c st :
  snd (onToggleTask_start taskId c st) =
  if 1000 <=? taskId then None else Some (mkToggleAwait (tasks st) taskId c).
Proof. unfold onToggleTask_start. destruct (1000 <=? taskId); reflexivity. Qed.

Lemma unique_id_position (l : list DailyTask) i j a b :
  NoDup (map id l) ->
  nth_error l i = Some a -> nth_error l j = Some b -> id a = id b -> i = j.
Proof.
  intros ND Hi Hj E.
  apply (proj1 (NoDup_nth_error (map id l)) ND).
  - rewrite length_map. apply nth_error_Some. congruence.
  - rewrite !nth_error_map, Hi, Hj. cbn. now rewrite E.
Qed.

(** C4.  A toggle of a task of the collection sets, in the synchronous
    part of the handler and so before the call it issues has any outcome,
    the completion flag of that task to the requested value and nothing
    else of it; every task with another identifier (with unique
    identifiers: at another position) is unchanged, and so are the length
    of the collection and the other state cells. *)
Theorem toggle_is_optimistic st i task requested :
  nth_error (tasks st) i = Some task ->
  let st1 := fst (onToggleTask_start (id task) requested st) in
  nth_error (tasks st1) i = Some (with_completed task requested)
  /\ option_map completed (nth_error (tasks st1) i) = Some requested
  /\ (forall j other,
         nth_error (tasks st) j = Some other -> id other <> id task ->
         nth_error (tasks st1) j = Some other)
  /\ (NoDup (map id (tasks st)) ->
      forall j other,
        j <> i -> nth_error (tasks st) j = Some other ->
        nth_error (tasks st1) j = Some other)
  /\ length (tasks st1) = length (tasks st)
  /\ (loading st1, error st1, joyScore st1, parentNotes st1, saving st1,
      saveMessage st1)
     = (loading st, error st, joyScore st, parentNotes st, saving st,
        saveMessage st)
  /\ (forall fl,
         step (mkSystem st fl) (ToggleChange (id task) requested)
              (mkSystem st1
                 (fl ++ spawn AwaitComplete
                          (snd (onToggleTask_start (id task) requested st))))).
Proof.
  intros Hi st1. subst st1. rewrite onToggleTask_start_state. cbn [tasks setTasks_from setTasks].
  assert (Hother : forall j other,
             nth_error (tasks st) j = Some other -> id other <> id task ->
             nth_error (mark (id task) requested (tasks st)) j = Some other).
  { intros j other Hj Hne. rewrite nth_error_mark, Hj. cbn.
    apply Z.eqb_neq in Hne. now rewrite Hne. }
  repeat split.
  - rewrite nth_error_mark, Hi. cbn. now rewrite Z.eqb_refl.
  - rewrite nth_error_mark, Hi. cbn. now rewrite Z.eqb_refl.
  - exact Hother.
  - intros ND j other Hne Hj. apply Hother; [exact Hj |].
    intros E. apply Hne. now apply (unique_id_position (tasks st) j i other task).
  - unfold mark. apply length_map.
  - intros fl. rewrite <- onToggleTask_start_state.
    apply step_toggle. now apply nth_error_In with i.
Qed.

Lemma onToggleTask_run net log taskId c st :
  taskId < 1000 ->
  onToggleTask net log taskId c st =
  ((log ++ [complete_request taskId c])%list,
   onToggleTask_settle (mkToggleAwait (tasks st) taskId c)
     (snd (perform net log (completeTask taskId c)))
     (setTasks_from (mark taskId c) st)).
Proof.
  intros Hlt. unfold onToggleTask, onToggleTask_start.
  apply Z.leb_gt in Hlt. rewrite Hlt. cbn [call_taskId call_completed].
  rewrite perform_completeTask. reflexivity.
Qed.

Lemma await_inv taskId c st w :
  snd (onToggleTask_start taskId c st) = Some w ->
  taskId < 1000 /\ w = mkToggleAwait (tasks st) taskId c.
Proof.
  rewrite onToggleTask_start_await.
  destruct (Z.leb_spec 1000 taskId); [discriminate |].
  intros [= <-]. now split.
Qed.

(** C1.  When the call of a toggle fails, the handler puts the collection
    back to the snapshot taken when the toggle started, equal to it task
    by task and in order, whatever happened to the state while the call
    was in flight, and sets the error message. *)
Theorem toggle_failure_restores_snapshot st taskId completed w net log e :
  snd (onToggleTask_start taskId completed st) = Some w ->
  snd (perform net log (completeTask taskId completed)) = Rejected e ->
  (forall current,
      tasks (onToggleTask_settle w (Rejected e) current) = tasks st
      /\ error (onToggleTask_settle w (Rejected e) current)
         = Some "Could not update task status. Please try again.")
  /\ tasks (snd (onToggleTask net log taskId completed st)) = tasks st
  /\ error (snd (onToggleTask net log taskId completed st))
     = Some "Could not update task status. Please try again.".
Proof.
  intros Hw Hfail. apply await_inv in Hw as [Hlt ->].
  rewrite (onToggleTask_run net log taskId completed st Hlt), Hfail.
  repeat split.
Qed.

(** C5.  When a toggle to completed is answered with success by a task
    with the toggled identifier and the completion flag set, every task of
    the collection with that identifier is replaced by the returned task,
    all its fields included, and the other tasks are unchanged. *)
Theorem toggle_success_adopts_server_task st taskId w net log updated :
  snd (onToggleTask_start taskId true st) = Some w ->
  snd (perform net log (completeTask taskId true)) = Fulfilled updated ->
  id updated = taskId ->
  completed updated = true ->
  (forall current i task,
      nth_error (tasks current) i = Some task -> id task = taskId ->
      nth_error (tasks (onToggleTask_settle w (Fulfilled updated) current)) i
      = Some updated)
  /\ (forall current j other,
         nth_error (tasks current) j = Some other -> id other <> taskId ->
         nth_error (tasks (onToggleTask_settle w (Fulfilled updated) current)) j
         = Some other)
  /\ (forall i task,
         nth_error (tasks st) i = Some task -> id task = taskId ->
         nth_error (tasks (snd (onToggleTask net log taskId true st))) i
         = Some updated
         /\ option_map completed
              (nth_error (tasks (snd (onToggleTask net log taskId true st))) i)
            = Some true).
Proof.
  intros Hw Hok Hid Hdone. apply await_inv in Hw as [Hlt ->].
  assert (Hsame : forall current i task,
             nth_error (tasks current) i = Some task -> id task = taskId ->
             nth_error (adopt updated (tasks current)) i = Some updated).
  { intros current i task Hi E. rewrite nth_error_adopt, Hi. cbn.
    rewrite Hid, E, Z.eqb_refl. reflexivity. }
  split; [exact Hsame | split].
  - intros current j other Hj Hne. cbn. rewrite nth_error_adopt, Hj. cbn.
    rewrite Hid. apply Z.eqb_neq in Hne. now rewrite Hne.
  - intros i task Hi E.
    rewrite (onToggleTask_run net log taskId true st Hlt), Hok.
    cbn [snd onToggleTask_settle setTasks_from setTasks tasks].
    assert (Hnew : nth_error (adopt updated (mark taskId true (tasks st))) i
                   = Some updated).
    { rewrite nth_error_adopt, nth_error_mark, Hi. cbn.
      rewrite E, Z.eqb_refl. cbn. rewrite Hid, E, Z.eqb_refl. reflexivity. }
    rewrite Hnew. cbn. now rewrite Hdone.
Qed.

(** *** Demo mode *)


Lemma no_demo_rows (l : list DailyTask) :
  (forall task, In task l -> id task < 1000) ->
  existsb (fun task => 1000 <=? id task) l = false.
Proof.
  intros H. destruct (existsb _ l) eqn:E; [| reflexivity].
  apply existsb_exists in E as (task & Hin & Hge).
  apply Z.leb_le in Hge. specialize (H task Hin). lia.
Qed.



(** *** Checkin submission *)

Lemma onSubmit_run net log st :
  (forall task, In task (tasks st) -> id task < 1000) ->
  let payload := {| checkin_child_id := childId;
                    joy_score := joyScore st;
                    parent_notes := parentNotes st |} in
  onSubmit net log st =
  ((log ++ [checkin_request payload])%list,
   onSubmit_settle (snd (perform net log (saveDailyCheckin payload)))
                   (setError None (setSaveMessage None (setSaving true st)))).
Proof.
  intros H payload. unfold onSubmit, onSubmit_start.
  rewrite (no_demo_rows _ H). fold payload.
  rewrite perform_saveDailyCheckin. reflexivity.
Qed.

(** C6 (amended).  When no task of the collection has an identifier of at
    least 1000, a checkin submission with joy score 4 and notes
    [great day] issues exactly one request, a POST to the checkin path of
    the child whose body is the joy score 4 and the notes [great day]; on
    a success response the state has the success message and no error
    message, and on a failure response (and on a rejected request) it has
    an error message and no success message. *)
Theorem checkin_submission_reports net log st :
  joyScore st = 4 ->
  parentNotes st = "great day" ->
  (forall task, In task (tasks st) -> id task < 1000) ->
  let post :=
    {| url := (API_BASE_URL ++ "/daily-plan/" ++ string_of_number childId
               ++ "/checkin")%string;
       method := POST;
       headers := [("Content-Type", "application/json")];
       body := Some (JObj [("joy_score", JNum 4);
                           ("parent_notes", JStr "great day")]);
       cache := None |} in
  let st' := snd (onSubmit net log st) in
  fst (onSubmit net log st) = (log ++ [post])%list
  /\ (forall response,
         net log TIgnored post = Fulfilled response -> ok response = true ->
         saveMessage st' = Some "Saved joy score and notes successfully."
         /\ error st' = None)
  /\ (forall response,
         net log TIgnored post = Fulfilled response -> ok response = false ->
         error st' = Some "Failed to save joy score and parent notes"
         /\ saveMessage st' = None)
  /\ (forall e,
         net log TIgnored post = Rejected e ->
         error st' = Some (message_of e) /\ saveMessage st' = None).
Proof.
  intros Hjoy Hnotes Hlive post st'. subst st'.
  rewrite (onSubmit_run net log st Hlive), perform_saveDailyCheckin.
  unfold checkin_request, json_headers.
  cbn [checkin_child_id joy_score parent_notes fst snd].
  rewrite Hjoy, Hnotes. fold post.
  split; [reflexivity | split; [| split]].
  - intros response E Hok. rewrite E, Hok. split; reflexivity.
  - intros response E Hok. rewrite E, Hok. split; reflexivity.
  - intros e E. rewrite E. split; reflexivity.
Qed.

(** *** The saving flag *)

Lemma outstanding_app fl1 fl2 st :
  submissions_outstanding (mkSystem st (fl1 ++ fl2)) =
  (length (filter is_checkin fl1) + length (filter is_checkin fl2))%nat.
Proof.
  unfold submissions_outstanding. cbn. now rewrite filter_app, length_app.
Qed.

(** While the component is mounted, a checkin call is in flight exactly
    when [saving] is set, and never more than one. *)
Lemma saving_tracks_submission sys :
  reachable sys ->
  submissions_outstanding sys = if saving (ui sys) then 1%nat else 0%nat.
Proof.
  induction 1 as [| sys ev sys' Hreach IH Hstep]; [reflexivity |].
  destruct Hstep as [st fl task c Hin | st fl n | st fl s | st fl Hfree
                    | st fl1 fl2 r | st fl1 fl2 w r | st fl1 fl2 payload r].
  - rewrite onToggleTask_start_state, onToggleTask_start_await.
    rewrite outstanding_app. cbn in IH |- *. unfold submissions_outstanding in IH.
    cbn in IH. rewrite IH. destruct (1000 <=? id task); cbn; lia.
  - exact IH.
  - exact IH.
  - unfold submit_disabled in Hfree. cbn in IH. rewrite Hfree in IH.
    rewrite outstanding_app. unfold submissions_outstanding in IH. cbn in IH.
    rewrite IH. unfold onSubmit_start.
    destruct (existsb _ (tasks st)); reflexivity.
  - rewrite outstanding_app in *. cbn in IH |- *.
    destruct r; cbn; exact IH.
  - rewrite outstanding_app in *. cbn in IH |- *.
    destruct r; cbn; exact IH.
  - rewrite outstanding_app in *. cbn in IH |- *.
    destruct (saving st); [| lia].
    assert (E : (length (filter is_checkin fl1) + length (filter is_checkin fl2))%nat
                = 0%nat) by lia.
    rewrite E. destruct r; reflexivity.
Qed.

(** C10.  A checkin submission sets [saving] before its call and clears
    it when the call settles, fulfilled or rejected.  The submit button is
    disabled exactly when [saving] is set, so that while a submission is
    in flight no click starts another: at most one is ever in flight. *)
Theorem saving_guards_submission :
  (forall st payload,
      snd (onSubmit_start st) = Some payload ->
      saving (fst (onSubmit_start st)) = true)
  /\ (forall r st, saving (onSubmit_settle r st) = false)
  /\ (forall net log st, saving (snd (onSubmit net log st)) = false)
  /\ (forall st, submit_disabled st = saving st)
  /\ (forall sys,
         reachable sys ->
         (submissions_outstanding sys <= 1)%nat
         /\ (submissions_outstanding sys = 1%nat <-> saving (ui sys) = true)
         /\ (submissions_outstanding sys = 1%nat ->
             submit_disabled (ui sys) = true
             /\ forall sys', ~ step sys SubmitClick sys')).
Proof.
  split; [| split; [| split; [| split]]].
  - intros st payload. unfold onSubmit_start.
    destruct (existsb _ (tasks st)); [discriminate | reflexivity].
  - intros [[] | e] st; reflexivity.
  - intros net log st. unfold onSubmit, onSubmit_start.
    destruct (existsb _ (tasks st)); [reflexivity |].
    destruct (perform net log _) as [log1 [[] | e]]; reflexivity.
  - reflexivity.
  - intros sys Hreach. pose proof (saving_tracks_submission sys Hreach) as Inv.
    destruct (saving (ui sys)) eqn:Hsaving; rewrite Inv.
    + split; [lia | split; [tauto |]]. intros _. split; [exact Hsaving |].
      intros sys' Hstep. inversion Hstep as [| | | st fl Hfree | | |]; subst.
      unfold submit_disabled in Hfree. cbn in Hsaving. congruence.
    + split; [lia | split; [split; intros; discriminate |]]. discriminate.
Qed.

(** ** Further properties of the API client *)

(** X1.  [fetchDailyPlan] fulfils with a plan in exactly two ways: the
    first answer is a success whose body reads as that plan, or the first
    answer is not-found, the profile request is answered, and the retry is
    a success whose body reads as that plan. *)
Theorem fetchDailyPlan_fulfils_iff (net : Network) log child plan_tasks :
  snd (perform net log (fetchDailyPlan child)) = Fulfilled plan_tasks <->
  (exists response,
      net log TTasks (plan_request child) = Fulfilled response
      /\ ok response = true
      /\ json response = Fulfilled plan_tasks)
  \/ (exists response created retry,
         net log TTasks (plan_request child) = Fulfilled response
         /\ status response = 404
         /\ net (log ++ [plan_request child])%list TIgnored profile_request
            = Fulfilled created
         /\ net (log ++ [plan_request child; profile_request])%list TTasks
                (plan_request child) = Fulfilled retry
         /\ ok retry = true
         /\ json retry = Fulfilled plan_tasks).
Proof.
  split.
  - intros H. plan_path net log child Hrun; cbn [snd] in H; try discriminate H.
    + left. eauto.
    + right. eauto 10.
  - intros [(response & E1 & Hok & Hjson)
           | (response & created & retry & E1 & H404 & E2 & E3 & Hok & Hjson)];
      plan_path net log child Hrun; cbn [snd]; congruence.
Qed.

(** X2.  [completeTask] fulfils with a task exactly when the answer is a
    success whose body reads as that task.  On any other status it fails
    with [Failed to update task status] without reading the body, and a
    rejected request is passed on; in no case is the request repeated. *)
Theorem completeTask_outcome (net : Network) log taskId completed :
  let request := complete_request taskId completed in
  let call := completeTask taskId completed in
  (forall updated,
      snd (perform net log call) = Fulfilled updated <->
      exists response,
        net log TTask request = Fulfilled response
        /\ ok response = true /\ json response = Fulfilled updated)
  /\ (forall response,
         net log TTask request = Fulfilled response -> ok response = false ->
         perform net log call
         = ((log ++ [request])%list,
            Rejected (new_Error "Failed to update task status")))
  /\ (forall e,
         net log TTask request = Rejected e ->
         perform net log call = ((log ++ [request])%list, Rejected e)).
Proof.
  intros request call. subst request call.
  rewrite perform_completeTask. cbn [snd].
  split; [| split].
  - intros updated. split.
    + destruct (net log TTask (complete_request taskId completed))
        as [response | e]; [| discriminate].
      destruct (ok response) eqn:Hok; [| discriminate].
      intros Hjson. now exists response.
    + intros (response & -> & -> & Hjson). exact Hjson.
  - intros response -> ->. reflexivity.
  - intros e ->. reflexivity.
Qed.

(** X3.  [saveDailyCheckin] fulfils exactly when the answer has a success
    status: the body of the answer is never read, so that an unreadable
    body does not make a saved checkin fail. *)
Theorem saveDailyCheckin_looks_at_status_only (net : Network) log payload :
  snd (perform net log (saveDailyCheckin payload)) = Fulfilled tt <->
  exists response,
    net log TIgnored (checkin_request payload) = Fulfilled response
    /\ ok response = true.
Proof.
  rewrite perform_saveDailyCheckin. cbn [snd]. split.
  - destruct (net log TIgnored (checkin_request payload)) as [response | e];
      [| discriminate].
    destruct (ok response) eqn:Hok; [| discriminate]. intros _. now exists response.
  - intros (response & -> & ->). reflexivity.
Qed.

Lemma append_inv_head (a s t : string) : (a ++ s = a ++ t)%string -> s = t.
Proof.
  induction a as [| c a IH]; cbn; [trivial |]. intros [= H]. now apply IH.
Qed.

Lemma length_append (s t : string) :
  String.length (s ++ t) = (String.length s + String.length t)%nat.
Proof. induction s as [| c s IH]; cbn; [reflexivity | now rewrite IH]. Qed.

Lemma append_inv_tail (s t e : string) : (s ++ e = t ++ e)%string -> s = t.
Proof.
  revert t. induction s as [| c s IH]; intros [| d t] H; cbn in H.
  - reflexivity.
  - apply (f_equal String.length) in H. cbn in H. rewrite length_append in H. lia.
  - apply (f_equal String.length) in H. cbn in H. rewrite length_append in H. lia.
  - injection H as -> H. f_equal. now apply IH.
Qed.

Lemma string_of_number_inj a b :
  safe_integer a = true -> safe_integer b = true ->
  string_of_number a = string_of_number b -> a = b.
Proof.
  unfold string_of_number. intros Ha Hb H. rewrite Ha, Hb in H.
  assert (P : forall n, NilZero.int_of_string (NilZero.string_of_int (Z.to_int n))
                        = Some (Z.to_int n)).
  { intros n. apply NilZero.isi; intros E;
      pose proof (DecimalZ.to_of (Z.to_int n)) as N;
      rewrite DecimalZ.of_to, E in N; discriminate N. }
  apply DecimalZ.to_int_inj.
  pose proof (P a) as Pa. rewrite H, P in Pa. now injection Pa.
Qed.

(** X4.  A request names its subject, for identifiers and scores within
    the safe integers: two plan requests are the same only for the same
    child, two checkin requests only for the same child, joy score and
    notes, and two completion requests only for the same task and the
    same flag. *)
Theorem requests_identify_their_subject :
  (forall a b,
      safe_integer a = true -> safe_integer b = true ->
      plan_request a = plan_request b -> a = b)
  /\ (forall p q,
         safe_integer (checkin_child_id p) = true ->
         safe_integer (checkin_child_id q) = true ->
         safe_integer (joy_score p) = true ->
         safe_integer (joy_score q) = true ->
         checkin_request p = checkin_request q -> p = q)
  /\ (forall a c b d,
         safe_integer a = true -> safe_integer b = true ->
         complete_request a c = complete_request b d -> a = b /\ c = d).
Proof.
  split; [| split].
  3: { intros a c b d _ _ H. apply (f_equal body) in H. cbn in H.
       injection H as -> ->. now split. }
  - intros a b Ha Hb H. apply (f_equal url) in H.
    unfold plan_request in H. cbn [url] in H.
    apply append_inv_head, append_inv_head in H.
    now apply string_of_number_inj.
  - intros [pc pj pn] [qc qj qn] Hp Hq _ _ H. cbn in Hp, Hq.
    pose proof (f_equal url H) as Hurl. pose proof (f_equal body H) as Hbody.
    unfold checkin_request in Hurl, Hbody.
    cbn [url body checkin_child_id joy_score parent_notes] in Hurl, Hbody.
    apply append_inv_head, append_inv_head, append_inv_tail in Hurl.
    apply string_of_number_inj in Hurl; [| assumption ..].
    injection Hbody as -> ->. now subst.
Qed.

(** X5.  Adding the bootstrap changed [fetchDailyPlan] only where the
    first answer is not-found: for every other first answer, and for a
    rejected request, it issues the requests and settles as the earlier
    revision does; and on not-found the earlier revision fails after one
    request with the error the present one ends in when the retry is
    refused. *)
Theorem fetchDailyPlan_extends_legacy (net : Network) log child :
  ((forall response,
       net log TTasks (plan_request child) = Fulfilled response ->
       status response <> 404) ->
   perform net log (fetchDailyPlan child)
   = perform net log (legacy_fetchDailyPlan child))
  /\ (forall response,
         net log TTasks (plan_request child) = Fulfilled response ->
         status response = 404 ->
         perform net log (legacy_fetchDailyPlan child)
         = ((log ++ [plan_request child])%list,
            Rejected (new_Error "Failed to fetch daily plan"))).
Proof.
  assert (L : perform net log (legacy_fetchDailyPlan child) =
              ((log ++ [plan_request child])%list,
               match net log TTasks (plan_request child) with
               | Fulfilled response =>
                   if ok response then json response
                   else Rejected (new_Error "Failed to fetch daily plan")
               | Rejected e => Rejected e
               end)).
  { unfold legacy_fetchDailyPlan. cbn.
    destruct (net log TTasks (plan_request child)) as [response | e];
      [| reflexivity].
    cbn. destruct (ok response); cbn; [| reflexivity].
    apply (perform_response_json net _ response). }
  split.
  - intros Hnot. rewrite L.
    plan_path net log child Hrun;
      try match goal with
        | E : net log TTasks _ = _ |- _ => rewrite E
        end;
      try match goal with
        | H : ok _ = _ |- _ => rewrite H
        end;
      try reflexivity;
      match goal with
      | E : net log TTasks _ = Fulfilled ?r, H : status ?r = 404 |- _ =>
          now destruct (Hnot r E)
      end.
  - intros response E H404. rewrite L, E, (ok_404 response H404). reflexivity.
Qed.

(** ** Further properties of the checklist component *)

(** *** What the mounted component keeps *)

Lemma map_id_mark taskId c l : map id (mark taskId c l) = map id l.
Proof.
  unfold mark. rewrite map_map. apply map_ext.
  intros task. now destruct (id task =? taskId).
Qed.

Lemma map_id_adopt updated l : map id (adopt updated l) = map id l.
Proof.
  unfold adopt. rewrite map_map. apply map_ext.
  intros task. destruct (Z.eqb_spec (id task) (id updated)); congruence.
Qed.

Lemma plan_fetches_app st fl1 fl2 :
  plan_fetches (mkSystem st (fl1 ++ fl2)) =
  (length (filter is_plan fl1) + length (filter is_plan fl2))%nat.
Proof. unfold plan_fetches. cbn. now rewrite filter_app, length_app. Qed.

Lemma spawn_complete_no_plan (w : option ToggleAwait) :
  filter is_plan (spawn AwaitComplete w) = [].
Proof. now destruct w. Qed.

Lemma spawn_checkin_no_plan (w : option SaveCheckinPayload) :
  filter is_plan (spawn AwaitCheckin w) = [].
Proof. now destruct w. Qed.

Lemma spawn_checkin_no_complete (o : option SaveCheckinPayload) w :
  ~ In (AwaitComplete w) (spawn AwaitCheckin o).
Proof. destruct o; cbn; [intros [H | []]; discriminate H | tauto]. Qed.

Lemma loading_run_settle r st : loading (run_settle r st) = false.
Proof. now destruct r. Qed.

Lemma onSubmit_start_frame st :
  tasks (fst (onSubmit_start st)) = tasks st
  /\ loading (fst (onSubmit_start st)) = loading st
  /\ joyScore (fst (onSubmit_start st)) = joyScore st
  /\ parentNotes (fst (onSubmit_start st)) = parentNotes st.
Proof. unfold onSubmit_start. now destruct (existsb _ (tasks st)). Qed.

Lemma onSubmit_settle_frame r st :
  tasks (onSubmit_settle r st) = tasks st
  /\ loading (onSubmit_settle r st) = loading st
  /\ joyScore (onSubmit_settle r st) = joyScore st
  /\ parentNotes (onSubmit_settle r st) = parentNotes st.
Proof. now destruct r. Qed.

Lemma stable_step sys ev sys' : Stable sys -> step sys ev sys' -> Stable sys'.
Proof.
  intros (P1 & P2 & P3) Hstep.
  destruct Hstep as [st fl task c Hin | st fl n | st fl s | st fl Hfree
                    | st fl1 fl2 r | st fl1 fl2 w r | st fl1 fl2 payload r];
    cbn [ui inflight] in *.
  - (* a toggle: the plan has loaded *)
    assert (Hloaded : loading st = false).
    { destruct (loading st); [| reflexivity].
      destruct (P2 eq_refl) as [Hnil _]. rewrite Hnil in Hin. destruct Hin. }
    rewrite onToggleTask_start_state.
    split; [| split]; cbn [ui inflight setTasks_from setTasks loading tasks].
    + rewrite plan_fetches_app, spawn_complete_no_plan, Nat.add_0_r. exact P1.
    + rewrite Hloaded. discriminate.
    + intros w Hw. rewrite map_id_mark. apply in_app_or in Hw as [Hw | Hw].
      * now apply P3.
      * rewrite onToggleTask_start_await in Hw.
        destruct (1000 <=? id task); cbn in Hw; [destruct Hw |].
        destruct Hw as [[= <-] | []]. reflexivity.
  - exact (conj P1 (conj P2 P3)).
  - exact (conj P1 (conj P2 P3)).
  - destruct (onSubmit_start_frame st) as (Ht & Hl & _).
    split; [| split]; cbn [ui inflight]; rewrite ?Ht, ?Hl.
    + rewrite plan_fetches_app, spawn_checkin_no_plan, Nat.add_0_r. exact P1.
    + intros Hload. destruct (P2 Hload) as [Hnil Hnone]. split; [exact Hnil |].
      intros w Hw. apply in_app_or in Hw as [Hw | Hw].
      * exact (Hnone w Hw).
      * exact (spawn_checkin_no_complete _ w Hw).
    + intros w Hw. apply in_app_or in Hw as [Hw | Hw].
      * now apply P3.
      * destruct (spawn_checkin_no_complete _ w Hw).
  - (* the plan settles, once *)
    rewrite plan_fetches_app in P1. cbn in P1.
    destruct (loading st) eqn:Hload; [| lia].
    destruct (P2 eq_refl) as [Hnil Hnone].
    split; [| split]; cbn [ui inflight]; rewrite ?loading_run_settle.
    + rewrite plan_fetches_app. lia.
    + discriminate.
    + intros w Hw. destruct (Hnone w).
      apply in_app_or in Hw as [Hw | Hw]; apply in_or_app; [left | right; right];
        exact Hw.
  - (* a completion call settles *)
    assert (Hin : In (AwaitComplete w) (fl1 ++ AwaitComplete w :: fl2)).
    { apply in_or_app. right. left. reflexivity. }
    assert (Hloaded : loading st = false).
    { destruct (loading st); [| reflexivity].
      destruct (P2 eq_refl) as [_ Hnone]. destruct (Hnone w Hin). }
    assert (Hids : map id (tasks (onToggleTask_settle w r st)) = map id (tasks st)).
    { destruct r as [updated | e]; cbn.
      - apply map_id_adopt.
      - now apply P3. }
    assert (Hload : loading (onToggleTask_settle w r st) = loading st).
    { now destruct r. }
    split; [| split]; cbn [ui inflight]; rewrite ?Hload, ?Hids.
    + rewrite plan_fetches_app in *. cbn in P1. exact P1.
    + rewrite Hloaded. discriminate.
    + intros w' Hw'. apply P3.
      apply in_app_or in Hw' as [Hw' | Hw']; apply in_or_app; [left | right; right];
        exact Hw'.
  - destruct (onSubmit_settle_frame r st) as (Ht & Hl & _).
    split; [| split]; cbn [ui inflight]; rewrite ?Ht, ?Hl.
    + rewrite plan_fetches_app in *. cbn in P1. exact P1.
    + intros Hload. destruct (P2 Hload) as [Hnil Hnone]. split; [exact Hnil |].
      intros w Hw. apply (Hnone w).
      apply in_app_or in Hw as [Hw | Hw]; apply in_or_app; [left | right; right];
        exact Hw.
    + intros w Hw. apply P3.
      apply in_app_or in Hw as [Hw | Hw]; apply in_or_app; [left | right; right];
        exact Hw.
Qed.

Lemma reachable_stable sys : reachable sys -> Stable sys.
Proof.
  induction 1 as [| sys ev sys' _ IH Hstep].
  - split; [reflexivity | split].
    + intros _. split; [reflexivity |]. intros w [H | []]. discriminate H.
    + intros w [H | []]. discriminate H.
  - exact (stable_step sys ev sys' IH Hstep).
Qed.

Lemma evolves_reachable sys sys' : reachable sys -> evolves sys sys' -> reachable sys'.
Proof.
  intros Hreach Hev. induction Hev as [| sys ev sys1 sys2 _ IH Hstep].
  - exact Hreach.
  - exact (reachable_step sys1 ev sys2 (IH Hreach) Hstep).
Qed.

Lemma loaded_no_plan_answer sys :
  reachable sys -> loading (ui sys) = false ->
  forall r sys', ~ step sys (PlanSettled r) sys'.
Proof.
  intros Hreach Hload r sys' Hstep.
  destruct (reachable_stable sys Hreach) as (P1 & _ & _).
  inversion Hstep as [| | | | st fl1 fl2 r' | |]; subst.
  rewrite plan_fetches_app in P1. cbn in P1, Hload. rewrite Hload in P1. lia.
Qed.

(** X7.  Once the plan has loaded, whatever the user does and however the
    calls in flight settle, the collection keeps the same tasks in the
    same order: toggles, confirmations and rollbacks change tasks in
    place, and never add, remove or reorder one. *)
Theorem loaded_collection_keeps_its_tasks sys sys' :
  reachable sys ->
  loading (ui sys) = false ->
  evolves sys sys' ->
  loading (ui sys') = false
  /\ map id (tasks (ui sys')) = map id (tasks (ui sys))
  /\ length (tasks (ui sys')) = length (tasks (ui sys)).
Proof.
  intros Hreach Hload Hev.
  assert (H : loading (ui sys') = false
              /\ map id (tasks (ui sys')) = map id (tasks (ui sys))).
  { induction Hev as [| sys ev sys1 sys2 Hev IH Hstep]; [now split |].
    destruct (IH Hreach Hload) as [Hload1 Hids1].
    pose proof (evolves_reachable sys sys1 Hreach Hev) as Hreach1.
    destruct (reachable_stable sys1 Hreach1) as (P1 & _ & P3).
    pose proof (loaded_no_plan_answer sys1 Hreach1) as Hnoplan.
    rewrite <- Hids1.
    destruct Hstep as [st fl task c Hin | st fl n | st fl s | st fl Hfree
                      | st fl1 fl2 r | st fl1 fl2 w r | st fl1 fl2 payload r];
      cbn [ui inflight] in *.
    - rewrite onToggleTask_start_state. cbn. split; [exact Hload1 |].
      apply map_id_mark.
    - now split.
    - now split.
    - destruct (onSubmit_start_frame st) as (Ht & Hl & _).
      rewrite Ht, Hl. now split.
    - destruct (Hnoplan Hload1 r _ (step_plan st fl1 fl2 r)).
    - split; [now destruct r |].
      destruct r as [updated | e]; cbn.
      + apply map_id_adopt.
      + apply P3. apply in_or_app. right. left. reflexivity.
    - destruct (onSubmit_settle_frame r st) as (Ht & Hl & _).
      rewrite Ht, Hl. now split. }
  destruct H as [H1 H2]. split; [exact H1 | split; [exact H2 |]].
  rewrite <- (length_map id (tasks (ui sys'))), H2. apply length_map.
Qed.

(** *** Toggles on the collection *)

Lemma with_completed_same task : with_completed task (completed task) = task.
Proof. now destruct task. Qed.

Lemma mark_absent taskId c l :
  (forall task, In task l -> id task <> taskId) -> mark taskId c l = l.
Proof.
  intros H. unfold mark. rewrite <- (map_id l) at 2. apply map_ext_in.
  intros task Hin. destruct (Z.eqb_spec (id task) taskId) as [E | _];
    [destruct (H task Hin E) | reflexivity].
Qed.

Lemma adopt_absent updated l :
  (forall task, In task l -> id task <> id updated) -> adopt updated l = l.
Proof.
  intros H. unfold adopt. rewrite <- (map_id l) at 2. apply map_ext_in.
  intros task Hin. destruct (Z.eqb_spec (id task) (id updated)) as [E | _];
    [destruct (H task Hin E) | reflexivity].
Qed.

(** X8.  Of two toggles of the same task the later one decides: marking
    a task and marking it again gives what the second marking alone
    gives; and marking a task with the flag it has changes nothing. *)
Theorem mark_last_wins taskId c1 c2 l :
  mark taskId c2 (mark taskId c1 l) = mark taskId c2 l
  /\ ((forall task, In task l -> id task = taskId -> completed task = c2) ->
      mark taskId c2 l = l).
Proof.
  split.
  - unfold mark. rewrite map_map. apply map_ext. intros task.
    destruct (Z.eqb_spec (id task) taskId) as [E | N]; cbn.
    + apply Z.eqb_eq in E. now rewrite E.
    + apply Z.eqb_neq in N. now rewrite N.
  - intros H. unfold mark. rewrite <- (map_id l) at 2. apply map_ext_in.
    intros task Hin. destruct (Z.eqb_spec (id task) taskId) as [E | _];
      [| reflexivity].
    rewrite <- (H task Hin E). apply with_completed_same.
Qed.

(** X9.  With unique identifiers, a toggle moves the number of completed
    tasks by the one task toggled: the count after the toggle, plus one if
    the task was completed before, is the count before, plus one if the
    task is asked to be completed. *)
Theorem toggle_moves_done_count_by_one l task c :
  NoDup (map id l) ->
  In task l ->
  (done_count (mark (id task) c l) + (if completed task then 1 else 0)
   = done_count l + (if c then 1 else 0))%nat.
Proof.
  intros ND Hin. induction l as [| head l IH]; [destruct Hin |].
  cbn [map] in ND. inversion ND as [| x xs Hnotin ND']; subst.
  destruct Hin as [-> | Hin].
  - assert (Hrest : mark (id task) c l = l).
    { apply mark_absent. intros other Ho E. apply Hnotin.
      rewrite <- E. now apply in_map. }
    unfold done_count in *. cbn [mark map]. fold (mark (id task) c l).
    rewrite Hrest, Z.eqb_refl. cbn.
    destruct c, (completed task); cbn; lia.
  - assert (Hne : id head <> id task).
    { intros E. apply Hnotin. rewrite E. now apply in_map. }
    specialize (IH ND' Hin).
    unfold done_count in *. cbn [mark map]. fold (mark (id task) c l).
    apply Z.eqb_neq in Hne. rewrite Hne. cbn.
    destruct (completed head); cbn; lia.
Qed.

(** X10.  The completion percentage depends on the tasks and not on their
    order. *)
Theorem completionPercentage_ignores_order l l' :
  Permutation l l' -> completionPercentage l = completionPercentage l'.
Proof.
  intros HP. rewrite !completionPercentage_counts.
  assert (Hlen : length l = length l') by now apply Permutation_length.
  assert (Hdone : done_count l = done_count l').
  { unfold done_count. apply Permutation_length.
    clear Hlen. induction HP as [| x l1 l2 _ IH | x y l1 | l1 l2 l3 _ IH1 _ IH2]; cbn.
    - constructor.
    - destruct (completed x); [now constructor | exact IH].
    - destruct (completed x), (completed y); try apply Permutation_refl.
      apply perm_swap.
    - now apply Permutation_trans with (filter (fun task => completed task) l2). }
  now rewrite Hlen, Hdone.
Qed.

(** X11.  A confirmation or a toggle for an identifier that no task of
    the collection has changes nothing: in particular, when the server
    answers a toggle with a task under another identifier that the
    collection does not have, the collection stays as the toggle
    left it. *)
Theorem unknown_identifier_changes_nothing st current updated taskId c :
  ((forall task, In task (tasks current) -> id task <> id updated) ->
   forall w, tasks (onToggleTask_settle w (Fulfilled updated) current) = tasks current)
  /\ ((forall task, In task (tasks st) -> id task <> taskId) ->
      tasks (fst (onToggleTask_start taskId c st)) = tasks st).
Proof.
  split.
  - intros H w. cbn. now apply adopt_absent.
  - intros H. rewrite onToggleTask_start_state. cbn. now apply mark_absent.
Qed.

(** X12.  A failed toggle undoes more than itself.  When a second task is
    toggled while the call of a first toggle is in flight, and the second
    toggle is confirmed before the first one is refused, the collection
    ends as it was before both: the confirmed change of the second task is
    lost on the screen, and no call is left in flight to bring it back. *)
Theorem rollback_discards_confirmed_toggle st first second c1 c2 confirmed e :
  In first (tasks st) -> In second (tasks st) ->
  id first < 1000 -> id second < 1000 ->
  exists s1 s2 s3 s4,
    step (mkSystem st []) (ToggleChange (id first) c1) s1
    /\ step s1 (ToggleChange (id second) c2) s2
    /\ step s2 (CompleteSettled
                  (mkToggleAwait (mark (id first) c1 (tasks st)) (id second) c2)
                  (Fulfilled confirmed)) s3
    /\ step s3 (CompleteSettled (mkToggleAwait (tasks st) (id first) c1)
                  (Rejected e)) s4
    /\ tasks (ui s4) = tasks st
    /\ inflight s4 = [].
Proof.
  intros Hin1 Hin2 Hlt1 Hlt2.
  apply Z.leb_gt in Hlt1, Hlt2.
  set (w1 := mkToggleAwait (tasks st) (id first) c1).
  set (w2 := mkToggleAwait (mark (id first) c1 (tasks st)) (id second) c2).
  set (st1 := setTasks_from (mark (id first) c1) st).
  set (st2 := setTasks_from (mark (id second) c2) st1).
  set (st3 := onToggleTask_settle w2 (Fulfilled confirmed) st2).
  assert (Hin2' : exists second', In second' (tasks st1) /\ id second' = id second).
  { exists (if id second =? id first then with_completed second c1 else second).
    split.
    - unfold st1. cbn. unfold mark. apply in_map_iff. exists second. now split.
    - now destruct (id second =? id first). }
  destruct Hin2' as (second' & Hin2' & Hid2).
  exists (mkSystem st1 [AwaitComplete w1]),
         (mkSystem st2 [AwaitComplete w1; AwaitComplete w2]),
         (mkSystem st3 [AwaitComplete w1]),
         (mkSystem (onToggleTask_settle w1 (Rejected e) st3) []).
  split; [| split; [| split; [| split; [| split]]]].
  - pose proof (step_toggle st [] first c1 Hin1) as S.
    unfold onToggleTask_start in S. rewrite Hlt1 in S. exact S.
  - pose proof (step_toggle st1 [AwaitComplete w1] second' c2 Hin2') as S.
    rewrite Hid2 in S. unfold onToggleTask_start in S. rewrite Hlt2 in S. exact S.
  - exact (step_complete st2 [AwaitComplete w1] [] w2 (Fulfilled confirmed)).
  - exact (step_complete st3 [] [] w1 (Rejected e)).
  - reflexivity.
  - reflexivity.
Qed.

(** X20.  The server has the last word on a confirmed toggle: when the
    answer carries the toggled identifier, the collection after the toggle
    and its confirmation is the collection before the toggle with the
    returned task in place, whatever flag was asked for; so if the server
    returns the task not completed, the tick is taken back. *)
Theorem confirmation_overrides_the_optimistic_flag (net : Network) log taskId c st updated :
  taskId < 1000 ->
  snd (perform net log (completeTask taskId c)) = Fulfilled updated ->
  id updated = taskId ->
  adopt updated (mark taskId c (tasks st)) = adopt updated (tasks st)
  /\ tasks (snd (onToggleTask net log taskId c st)) = adopt updated (tasks st).
Proof.
  intros Hlt Hok Hid.
  assert (H : adopt updated (mark taskId c (tasks st)) = adopt updated (tasks st)).
  { unfold adopt, mark. rewrite map_map. apply map_ext. intros task.
    rewrite Hid. destruct (Z.eqb_spec (id task) taskId) as [E | N]; cbn.
    - apply Z.eqb_eq in E. now rewrite E.
    - apply Z.eqb_neq in N. now rewrite N. }
  split; [exact H |].
  rewrite (onToggleTask_run net log taskId c st Hlt), Hok. exact H.
Qed.

(** *** What the handlers leave alone *)

(** While a checkin is being saved no success message is shown. *)
Lemma saving_hides_success sys :
  reachable sys -> saving (ui sys) = true -> saveMessage (ui sys) = None.
Proof.
  induction 1 as [| sys ev sys' _ IH Hstep]; [discriminate |].
  destruct Hstep as [st fl task c Hin | st fl n | st fl s | st fl Hfree
                    | st fl1 fl2 r | st fl1 fl2 w r | st fl1 fl2 payload r];
    cbn [ui] in IH |- *.
  - rewrite onToggleTask_start_state. exact IH.
  - exact IH.
  - exact IH.
  - unfold onSubmit_start. destruct (existsb _ (tasks st)); cbn;
      [discriminate | reflexivity].
  - destruct r; exact IH.
  - destruct r; exact IH.
  - destruct r; discriminate.
Qed.

(** X13.  The messages a checkin submission leaves.  Run to its end with
    no other event in between, it leaves exactly one: a success message
    and no error, or an error and no success message.  With other events
    in between, a refused submission still leaves its error and no success
    message, while a saved one leaves the success message and the error
    cell as it finds it: the error of a toggle that failed in the meantime
    stays, and both messages are then shown. *)
Theorem submission_messages :
  (forall (net : Network) log st,
      let st' := snd (onSubmit net log st) in
      (saveMessage st' <> None /\ error st' = None)
      \/ (error st' <> None /\ saveMessage st' = None))
  /\ (forall sys payload e sys',
         reachable sys ->
         step sys (CheckinSettled payload (Rejected e)) sys' ->
         error (ui sys') = Some (message_of e) /\ saveMessage (ui sys') = None)
  /\ (forall sys payload sys',
         reachable sys ->
         step sys (CheckinSettled payload (Fulfilled tt)) sys' ->
         saveMessage (ui sys') = Some "Saved joy score and notes successfully."
         /\ error (ui sys') = error (ui sys))
  /\ (exists sys,
         reachable sys
         /\ saveMessage (ui sys) = Some "Saved joy score and notes successfully."
         /\ error (ui sys) = Some "Could not update task status. Please try again.").
Proof.
  split; [| split; [| split]].
  - intros net log st. unfold onSubmit, onSubmit_start.
    destruct (existsb _ (tasks st)).
    + left. cbn. split; [discriminate | reflexivity].
    + destruct (perform net log _) as [log1 [[] | e]]; cbn.
      * left. split; [discriminate | reflexivity].
      * right. split; [discriminate | reflexivity].
  - intros sys payload e sys' Hreach Hstep.
    pose proof (saving_tracks_submission sys Hreach) as Hcount.
    pose proof (saving_hides_success sys Hreach) as Hhidden.
    inversion Hstep as [| | | | | | st fl1 fl2 payload' r]; subst.
    rewrite outstanding_app in Hcount. cbn in Hcount, Hhidden |- *.
    destruct (saving st); [| lia]. split; [reflexivity | now apply Hhidden].
  - intros sys payload sys' Hreach Hstep.
    inversion Hstep as [| | | | | | st fl1 fl2 payload' r]; subst.
    cbn. split; reflexivity.
  - set (plan := [sample_task 1 false]).
    set (st1 := run_settle (Fulfilled plan) (run_start initial_state)).
    set (st2 := fst (onSubmit_start st1)).
    set (payload := {| checkin_child_id := childId; joy_score := 3;
                       parent_notes := EmptyString |}).
    set (st3 := setTasks_from (mark 1 true) st2).
    set (w := mkToggleAwait plan 1 true).
    set (st4 := onToggleTask_settle w
                  (Rejected (new_Error "Failed to update task status")) st3).
    set (st5 := onSubmit_settle (Fulfilled tt) st4).
    exists (mkSystem st5 []). split; [| split; reflexivity].
    apply (reachable_step (mkSystem st4 [AwaitCheckin payload])
             (CheckinSettled payload (Fulfilled tt)));
      [| exact (step_checkin st4 [] [] payload (Fulfilled tt))].
    apply (reachable_step (mkSystem st3 [AwaitCheckin payload; AwaitComplete w])
             (CompleteSettled w
                (Rejected (new_Error "Failed to update task status"))));
      [| exact (step_complete st3 [AwaitCheckin payload] [] w
                  (Rejected (new_Error "Failed to update task status")))].
    apply (reachable_step (mkSystem st2 [AwaitCheckin payload])
             (ToggleChange 1 true));
      [| exact (step_toggle st2 [AwaitCheckin payload] (sample_task 1 false) true
                  (or_introl eq_refl))].
    apply (reachable_step (mkSystem st1 []) SubmitClick);
      [| exact (step_submit st1 [] eq_refl)].
    apply (reachable_step mounted (PlanSettled (Fulfilled plan)));
      [apply reachable_mounted |].
    exact (step_plan (run_start initial_state) [] [] (Fulfilled plan)).
Qed.

(** X14.  A checkin submission, saved or refused, leaves the form as the
    user filled it: the joy score and the notes are not reset, and the
    collection and the loading flag are not touched. *)
Theorem submission_keeps_the_form (net : Network) log st :
  let st' := snd (onSubmit net log st) in
  joyScore st' = joyScore st
  /\ parentNotes st' = parentNotes st
  /\ tasks st' = tasks st
  /\ loading st' = loading st.
Proof.
  unfold onSubmit, onSubmit_start.
  destruct (existsb _ (tasks st)); [now cbn |].
  destruct (perform net log _) as [log1 [[] | e]]; now cbn.
Qed.

(** X15.  A toggle run to its end never touches the checkin form, the
    saving flag, the save message or the loading flag; and unless its call
    fails it leaves the error message as it was, so that the message of
    an earlier failure stays on the screen after a toggle that succeeds. *)
Theorem toggle_leaves_the_rest (net : Network) log taskId c st :
  let st' := snd (onToggleTask net log taskId c st) in
  (joyScore st', parentNotes st', saving st', saveMessage st', loading st')
  = (joyScore st, parentNotes st, saving st, saveMessage st, loading st)
  /\ ((forall e, snd (perform net log (completeTask taskId c)) <> Rejected e) ->
      error st' = error st)
  /\ (1000 <= taskId -> error st' = error st).
Proof.
  unfold onToggleTask, onToggleTask_start.
  destruct (Z.leb_spec 1000 taskId) as [Hge | Hlt]; cbn [call_taskId call_completed].
  - now cbn.
  - destruct (perform net log (completeTask taskId c)) as [log1 [updated | e]] eqn:E;
      cbn; (split; [reflexivity | split; [| lia]]).
    + reflexivity.
    + intros H. destruct (H e eq_refl).
Qed.

(** X21.  With the joy score coming from the slider, the score on the
    form is always a whole number from 1 to 5, and every checkin in flight
    carries such a score, for the child the component was mounted for. *)
Theorem checkins_carry_a_slider_score sys :
  reachable_with_slider sys ->
  1 <= joyScore (ui sys) <= 5
  /\ (forall payload,
         In (AwaitCheckin payload) (inflight sys) ->
         1 <= joy_score payload <= 5 /\ checkin_child_id payload = childId).
Proof.
  induction 1 as [| sys ev sys' _ [IHjoy IHpay] Hev Hstep].
  - split; [cbn; lia |]. intros payload [H | []]. discriminate H.
  - destruct Hstep as [st fl task c Hin | st fl n | st fl s | st fl Hfree
                      | st fl1 fl2 r | st fl1 fl2 w r | st fl1 fl2 payload r];
      cbn [ui inflight] in *.
    + rewrite onToggleTask_start_state. split; [exact IHjoy |].
      intros payload Hp. apply in_app_or in Hp as [Hp | Hp]; [now apply IHpay |].
      destruct (snd (onToggleTask_start (id task) c st)); cbn in Hp;
        [destruct Hp as [Hp | []]; discriminate Hp | destruct Hp].
    + split; [exact Hev | exact IHpay].
    + split; [exact IHjoy | exact IHpay].
    + destruct (onSubmit_start_frame st) as (_ & _ & Hj & _). rewrite Hj.
      split; [exact IHjoy |].
      intros payload Hp. apply in_app_or in Hp as [Hp | Hp]; [now apply IHpay |].
      unfold onSubmit_start in Hp. destruct (existsb _ (tasks st)); cbn in Hp;
        [destruct Hp |].
      destruct Hp as [[= <-] | []]. cbn. now split.
    + split; [destruct r; exact IHjoy |].
      intros payload Hp. apply IHpay.
      apply in_app_or in Hp as [Hp | Hp]; apply in_or_app; [left | right; right];
        exact Hp.
    + split; [destruct r; exact IHjoy |].
      intros payload Hp. apply IHpay.
      apply in_app_or in Hp as [Hp | Hp]; apply in_or_app; [left | right; right];
        exact Hp.
    + destruct (onSubmit_settle_frame r st) as (_ & _ & Hj & _). rewrite Hj.
      split; [exact IHjoy |].
      intros payload' Hp. apply IHpay.
      apply in_app_or in Hp as [Hp | Hp]; apply in_or_app; [left | right; right];
        exact Hp.
Qed.

(** ** Properties of the dashboard charts *)

Lemma first_rejection_in {A B C} order
    (w : JsResult A) (p : JsResult B) (d : JsResult C) e :
  first_rejection order w p d = Some e ->
  In (Some e) [rejection w; rejection p; rejection d].
Proof.
  induction order as [| slot rest IH]; cbn; [discriminate |].
  destruct slot.
  - destruct (rejection w) eqn:R; [intros [= <-]; now left | exact IH].
  - destruct (rejection p) eqn:R; [intros [= <-]; right; now left | exact IH].
  - destruct (rejection d) eqn:R; [intros [= <-]; right; right; now left | exact IH].
Qed.

Lemma first_rejection_found {A B C} arrival
    (w : JsResult A) (p : JsResult B) (d : JsResult C) :
  first_rejection (arrival ++ [WeeklySlot; PillarSlot; DifficultySlot]) w p d = None ->
  rejection w = None /\ rejection p = None /\ rejection d = None.
Proof.
  induction arrival as [| slot rest IH]; cbn.
  - destruct (rejection w), (rejection p), (rejection d); try discriminate. auto.
  - destruct slot;
      [destruct (rejection w) | destruct (rejection p) | destruct (rejection d)];
      try discriminate; exact IH.
Qed.

(** [Promise.all] gives the three values when the three promises fulfil,
    and otherwise rejects with the reason of one that rejected. *)
Lemma Promise_all_cases {A B C} arrival
    (w : JsResult A) (p : JsResult B) (d : JsResult C) :
  (exists a b c,
      w = Fulfilled a /\ p = Fulfilled b /\ d = Fulfilled c
      /\ Promise_all arrival w p d = Fulfilled (a, b, c))
  \/ (exists e,
         Promise_all arrival w p d = Rejected e
         /\ In (Some e) [rejection w; rejection p; rejection d]).
Proof.
  destruct w as [a | ew] eqn:Ew, p as [b | ep] eqn:Ep, d as [c | ed] eqn:Ed;
    [left; now exists a, b, c | right ..];
    unfold Promise_all;
    match goal with
    | |- context [first_rejection ?o ?w ?p ?d] =>
        destruct (first_rejection o w p d) as [e |] eqn:Hf;
        [ exists e; split; [reflexivity | exact (first_rejection_in _ _ _ _ _ Hf)]
        | apply first_rejection_found in Hf; cbn in Hf;
          destruct Hf as (H1 & H2 & H3); discriminate ]
    end.
Qed.

(** X16.  The dashboard load stores its data all at once or not at all:
    either the three answers were successes with readable bodies, the
    four data cells are set and no error is shown, or an error is shown
    and the four data cells are what they were.  In both cases loading is
    over. *)
Theorem loadDashboardData_all_or_nothing arrival weeklyRes pillarRes difficultyRes st :
  let st' := loadDashboardData arrival weeklyRes pillarRes difficultyRes st in
  charts_loading st' = false
  /\ ((charts_error st' = None
       /\ loadDashboardData_try arrival weeklyRes pillarRes difficultyRes
          = Fulfilled (todayCompletion st', weeklyData st', pillarData st',
                       difficultyData st')
       /\ (exists a b c,
              weeklyRes = Fulfilled a /\ pillarRes = Fulfilled b
              /\ difficultyRes = Fulfilled c
              /\ chart_ok a = true /\ chart_ok b = true /\ chart_ok c = true))
      \/ (charts_error st' <> None
          /\ todayCompletion st' = todayCompletion st
          /\ weeklyData st' = weeklyData st
          /\ pillarData st' = pillarData st
          /\ difficultyData st' = difficultyData st)).
Proof.
  unfold loadDashboardData, loadDashboardData_settle.
  destruct (loadDashboardData_try arrival weeklyRes pillarRes difficultyRes)
    as [[[[t wk] pl] df] | e] eqn:Htry; cbn.
  - split; [reflexivity | left]. split; [reflexivity | split; [reflexivity |]].
    unfold loadDashboardData_try in Htry.
    destruct (Promise_all_cases arrival weeklyRes pillarRes difficultyRes)
      as [(a & b & c & -> & -> & -> & Hall) | (e & Hall & _)];
      rewrite Hall in Htry; cbn in Htry; [| discriminate].
    exists a, b, c.
    destruct (chart_ok a), (chart_ok b), (chart_ok c); cbn in Htry;
      try discriminate. repeat split.
  - split; [reflexivity | right]. repeat split. discriminate.
Qed.

(** X17.  How the dashboard load fails.  When the three requests are
    answered and one of the answers is not a success, the error shown is
    [Failed to fetch dashboard analytics], whatever the bodies hold; when
    a request is rejected, the error shown is the message of one of the
    rejections; and when the weekly body is [null], the error shown is
    the engine's refusal to read a property of it. *)
Theorem loadDashboardData_failures arrival weeklyRes pillarRes difficultyRes st :
  let st' := loadDashboardData arrival weeklyRes pillarRes difficultyRes st in
  (forall a b c,
      weeklyRes = Fulfilled a -> pillarRes = Fulfilled b ->
      difficultyRes = Fulfilled c ->
      chart_ok a && chart_ok b && chart_ok c = false ->
      charts_error st' = Some "Failed to fetch dashboard analytics")
  /\ ((exists e, In (Some e) [rejection weeklyRes; rejection pillarRes;
                              rejection difficultyRes]) ->
      exists e,
        In (Some e) [rejection weeklyRes; rejection pillarRes;
                     rejection difficultyRes]
        /\ charts_error st' = Some (chart_message_of e))
  /\ (forall a b c pillars difficulties,
         weeklyRes = Fulfilled a -> pillarRes = Fulfilled b ->
         difficultyRes = Fulfilled c ->
         chart_ok a && chart_ok b && chart_ok c = true ->
         chart_json a = Fulfilled weekly_null ->
         chart_json b = Fulfilled pillars ->
         chart_json c = Fulfilled difficulties ->
         charts_error st' = Some null_read_message).
Proof.
  unfold loadDashboardData, loadDashboardData_settle, loadDashboardData_try.
  split; [| split].
  - intros a b c -> -> -> Hok. cbn.
    destruct (chart_ok a), (chart_ok b), (chart_ok c); cbn in *;
      try discriminate; reflexivity.
  - intros (e0 & Hin).
    destruct (Promise_all_cases arrival weeklyRes pillarRes difficultyRes)
      as [(a & b & c & -> & -> & -> & _) | (e & Hall & He)].
    + cbn in Hin. destruct Hin as [H | [H | [H | []]]]; discriminate H.
    + exists e. split; [exact He |]. rewrite Hall. reflexivity.
  - intros a b c pillars difficulties -> -> -> Hok Hw Hp Hd. cbn.
    destruct (chart_ok a), (chart_ok b), (chart_ok c); cbn in *;
      try discriminate.
    rewrite Hw, Hp, Hd. reflexivity.
Qed.

(** X18.  What a successful dashboard load stores when fields are missing
    or [null]: a missing [today], or a [today] without [completion],
    counts as 0, and a missing or [null] list counts as empty; fields
    that are there are stored as they are. *)
Theorem loadDashboardData_defaults arrival a b c today_field weekly_field
    pillars difficulties st :
  chart_ok a = true -> chart_ok b = true -> chart_ok c = true ->
  chart_json a = Fulfilled (weekly_value today_field weekly_field) ->
  chart_json b = Fulfilled pillars ->
  chart_json c = Fulfilled difficulties ->
  let st' := loadDashboardData arrival (Fulfilled a) (Fulfilled b) (Fulfilled c) st in
  charts_error st' = None
  /\ todayCompletion st'
     = match today_field with
       | present {| completion := present percent |} => percent
       | _ => Number_of_Z 0
       end
  /\ weeklyData st' = match weekly_field with present l => l | _ => [] end
  /\ pillarData st' = match pillars with present l => l | _ => [] end
  /\ difficultyData st' = match difficulties with present l => l | _ => [] end.
Proof.
  intros Ha Hb Hc Hw Hp Hd.
  unfold loadDashboardData, loadDashboardData_settle, loadDashboardData_try.
  cbn. rewrite Ha, Hb, Hc. cbn. rewrite Hw, Hp, Hd. cbn.
  repeat split.
  destruct today_field as [| | [[| | percent]]]; reflexivity.
Qed.

Lemma remaining_agrees_to_100 : forallb remaining_agrees (seq 0 101) = true.
Proof. vm_compute. reflexivity. Qed.

(** X19.  The two slices of the completion circle.  The remaining slice
    is never negative (it is NaN when today's completion is); and for a
    whole percentage from 0 to 100 it is the complement to 100. *)
Theorem circleData_remaining :
  (forall c, exists remaining,
      circleData c = [("Completed", c); ("Remaining", remaining)]
      /\ (remaining = S754_nan \/ SFltb remaining (Number_of_Z 0) = false))
  /\ (forall n, 0 <= n <= 100 ->
      circleData (Number_of_Z n)
      = [("Completed", Number_of_Z n); ("Remaining", Number_of_Z (100 - n))]).
Proof.
  split.
  - intros c. eexists. split; [reflexivity |].
    destruct (Number_sub (Number_of_Z 100) c) as [s | s | | s m e];
      try destruct s; cbn; auto.
  - intros n Hn. unfold circleData. do 2 f_equal. f_equal.
    pose proof remaining_agrees_to_100 as A. rewrite forallb_forall in A.
    specialize (A (Z.to_nat n)). unfold remaining_agrees in A.
    rewrite Z2Nat.id in A by lia.
    apply spec_float_eqb_eq, A, in_seq. lia.
Qed.

End Deployment.

(** ** The properties at concrete inputs *)

(** C1 at a failing server: the second of five tasks is ticked, the server
    answers 500, and the five tasks are as before. *)
Lemma toggle_failure_restores_snapshot_witness :
  snd (onToggleTask_start 2 true live_state)
  = Some (mkToggleAwait live_tasks 2 true)
  /\ snd (perform (always_status 500) [] (completeTask localhost 2 true))
     = Rejected (new_Error "Failed to update task status")
  /\ tasks (snd (onToggleTask localhost (always_status 500) [] 2 true live_state))
     = live_tasks
  /\ error (snd (onToggleTask localhost (always_status 500) [] 2 true live_state))
     = Some "Could not update task status. Please try again.".
Proof.
  assert (H1 : snd (onToggleTask_start 2 true live_state)
               = Some (mkToggleAwait live_tasks 2 true)) by reflexivity.
  assert (H2 : snd (perform (always_status 500) [] (completeTask localhost 2 true))
               = Rejected (new_Error "Failed to update task status"))
    by reflexivity.
  split; [exact H1 | split; [exact H2 |]].
  exact (proj2 (toggle_failure_restores_snapshot
                  localhost live_state 2 true _ (always_status 500) [] _ H1 H2)).
Defined.

(** C2 as stated fails when the profile request is rejected: the plan
    fetch is answered not-found, the profile request is issued, and no
    retry follows. *)
Lemma fetchDailyPlan_no_retry_when_profile_blocked :
  ~ recovers_with_one_retry localhost sample_engine profile_blocked 1.
Proof.
  intros H.
  specialize (H {| status := 404; json := unreadable TTasks |} eq_refl eq_refl).
  vm_compute in H. discriminate H.
Qed.

(** C2 (amended) at a server that answers not-found to everything: three
    requests, then the error. *)
Lemma fetchDailyPlan_bootstrap_retry_witness :
  always_status 404 [] TTasks (plan_request localhost sample_engine 1)
  = Fulfilled {| status := 404; json := unreadable TTasks |}
  /\ issued (always_status 404) [] (fetchDailyPlan localhost sample_engine 1)
     = [plan_request localhost sample_engine 1; profile_request localhost; plan_request localhost sample_engine 1]
  /\ snd (perform (always_status 404) [] (fetchDailyPlan localhost sample_engine 1))
     = Rejected (new_Error "Failed to fetch daily plan").
Proof.
  destruct (fetchDailyPlan_bootstrap_retry localhost sample_engine (always_status 404) [] 1)
    as [Hfound _].
  destruct (Hfound {| status := 404; json := unreadable TTasks |} eq_refl eq_refl)
    as [_ Hcreated].
  destruct (Hcreated {| status := 404; json := unreadable TIgnored |} eq_refl)
    as (Hissued & Hretry & _).
  split; [reflexivity | split; [exact Hissued |]].
  exact (Hretry {| status := 404; json := unreadable TTasks |} eq_refl).
Defined.

(** C4 on the second of five tasks. *)
Lemma toggle_is_optimistic_witness :
  nth_error (tasks live_state) 1 = Some (sample_task 2 false)
  /\ nth_error (tasks (fst (onToggleTask_start 2 true live_state))) 1
     = Some (sample_task 2 true)
  /\ (forall j other,
         nth_error (tasks live_state) j = Some other -> id other <> 2 ->
         nth_error (tasks (fst (onToggleTask_start 2 true live_state))) j
         = Some other).
Proof.
  assert (H : nth_error (tasks live_state) 1 = Some (sample_task 2 false))
    by reflexivity.
  destruct (toggle_is_optimistic "2024-05-01" 1 live_state 1
              (sample_task 2 false) true H) as (Hset & _ & Hothers & _).
  split; [exact H | split; [exact Hset | exact Hothers]].
Defined.

(** C5 at an accepting server: the second task is replaced by the task the
    server returns, completion timestamp included. *)
Lemma toggle_success_adopts_server_task_witness :
  snd (onToggleTask_start 2 true live_state)
  = Some (mkToggleAwait live_tasks 2 true)
  /\ snd (perform accepting [] (completeTask localhost 2 true))
     = Fulfilled (confirmed_task (complete_request localhost 2 true))
  /\ nth_error (tasks (snd (onToggleTask localhost accepting [] 2 true live_state))) 1
     = Some (confirmed_task (complete_request localhost 2 true))
  /\ option_map completion_timestamp
       (nth_error (tasks (snd (onToggleTask localhost accepting [] 2 true live_state))) 1)
     = Some (present "2024-05-01T09:30:00").
Proof.
  assert (H1 : snd (onToggleTask_start 2 true live_state)
               = Some (mkToggleAwait live_tasks 2 true)) by reflexivity.
  assert (H2 : snd (perform accepting [] (completeTask localhost 2 true))
               = Fulfilled (confirmed_task (complete_request localhost 2 true)))
    by reflexivity.
  destruct (toggle_success_adopts_server_task
              localhost live_state 2 _ accepting [] _ H1 H2 eq_refl eq_refl)
    as (_ & _ & Hseq).
  destruct (Hseq 1%nat (sample_task 2 false) eq_refl eq_refl) as [Hnew _].
  split; [exact H1 | split; [exact H2 | split; [exact Hnew |]]].
  rewrite Hnew. reflexivity.
Defined.

(** C6 as stated fails in demo mode: with the demo tasks on screen the
    submission issues no request at all. *)
Lemma checkin_not_posted_in_demo_mode :
  joyScore (demo_preview "2024-05-01") = 4
  /\ parentNotes (demo_preview "2024-05-01") = "great day"
  /\ fst (onSubmit localhost sample_engine 1 accepting [] (demo_preview "2024-05-01")) = []
  /\ ~ checkin_posts localhost sample_engine 1 accepting (demo_preview "2024-05-01").
Proof.
  repeat split. intros (post & H & _). vm_compute in H. discriminate H.
Qed.

(** C6 (amended) at an accepting server. *)
Lemma checkin_submission_reports_witness :
  joyScore live_state = 4
  /\ parentNotes live_state = "great day"
  /\ (forall task, In task (tasks live_state) -> id task < 1000)
  /\ fst (onSubmit localhost sample_engine 1 accepting [] live_state)
     = [ {| url := "http://localhost:8000/daily-plan/1/checkin";
            method := POST;
            headers := [("Content-Type", "application/json")];
            body := Some (JObj [("joy_score", JNum 4);
                                ("parent_notes", JStr "great day")]);
            cache := None |} ]
  /\ saveMessage (snd (onSubmit localhost sample_engine 1 accepting [] live_state))
     = Some "Saved joy score and notes successfully."
  /\ error (snd (onSubmit localhost sample_engine 1 accepting [] live_state)) = None.
Proof.
  assert (Hlive : forall task, In task (tasks live_state) -> id task < 1000).
  { intros task Hin. cbn in Hin.
    repeat (destruct Hin as [<- | Hin]; [cbn; lia |]). contradiction. }
  destruct (checkin_submission_reports
              localhost sample_engine 1 accepting [] live_state eq_refl eq_refl Hlive)
    as (Hpost & Hok & _).
  destruct (Hok {| status := 200; json := Fulfilled (tt : body_of TIgnored) |}
                eq_refl eq_refl) as [Hmsg Herr].
  split; [reflexivity | split; [reflexivity | split; [exact Hlive |]]].
  split; [exact Hpost | split; [exact Hmsg | exact Herr]].
Defined.

(** C7 as stated fails for [fetchDailyPlan]: against a server that answers
    not-found it issues three requests. *)
Lemma fetchDailyPlan_not_single_shot :
  length (issued (always_status 404) [] (fetchDailyPlan localhost sample_engine 1)) = 3%nat
  /\ ~ single_shot (fetchDailyPlan localhost sample_engine 1).
Proof.
  split; [reflexivity |].
  intros H. specialize (H (always_status 404) []). vm_compute in H. discriminate H.
Qed.

(** C7 (amended) at a server that answers not-found to everything: one
    completion request; the plan request, the profile request and the
    retry; and the same three requests when the plan is asked for again. *)
Lemma client_network_calls_witness :
  issued (always_status 404) [] (completeTask localhost 2 true)
  = [complete_request localhost 2 true]
  /\ always_status 404 [] TTasks (plan_request localhost sample_engine 1)
     = Fulfilled {| status := 404; json := unreadable TTasks |}
  /\ issued (always_status 404) [] (fetchDailyPlan localhost sample_engine 1)
     = [plan_request localhost sample_engine 1; profile_request localhost;
        plan_request localhost sample_engine 1]
  /\ history_independent (always_status 404)
  /\ issued (always_status 404) [complete_request localhost 2 true]
            (fetchDailyPlan localhost sample_engine 1)
     = issued (always_status 404) [] (fetchDailyPlan localhost sample_engine 1).
Proof.
  destruct (client_network_calls localhost sample_engine)
    as (_ & Hcomplete & _ & _ & Hplan & Hagain).
  assert (Hnet : history_independent (always_status 404)).
  { intros log log' t req. reflexivity. }
  destruct (Hplan 1 (always_status 404) []) as (_ & Hfound & _).
  destruct (Hfound {| status := 404; json := unreadable TTasks |} eq_refl eq_refl)
    as [_ Hretry].
  destruct (Hagain (always_status 404) [] [complete_request localhost 2 true] Hnet)
    as (Hsame & _).
  split; [exact (Hcomplete 2 true (always_status 404) []) |].
  split; [reflexivity |].
  split; [exact (Hretry {| status := 404; json := unreadable TIgnored |} eq_refl) |].
  split; [exact Hnet | exact (proj1 (Hsame 1))].
Defined.

(** C8 with no server in reach. *)
Lemma plan_failure_shows_demo_witness :
  snd (perform offline [] (fetchDailyPlan localhost sample_engine 1))
  = Rejected (ErrorObject "TypeError" "Failed to fetch")
  /\ tasks (snd (mount localhost sample_engine "2024-05-01" 1 offline [] initial_state))
     = DEMO_TASKS "2024-05-01"
  /\ completionPercentage
       (tasks (snd (mount localhost sample_engine "2024-05-01" 1 offline [] initial_state)))
     = Number_of_Z 40.
Proof.
  assert (H : snd (perform offline [] (fetchDailyPlan localhost sample_engine 1))
              = Rejected (ErrorObject "TypeError" "Failed to fetch"))
    by reflexivity.
  destruct (plan_failure_shows_demo localhost sample_engine "2024-05-01" 1 offline []
              initial_state _ H) as (Htasks & _ & _ & Hpct & _).
  split; [exact H | split; [exact Htasks | exact Hpct]].
Defined.


(** C10 on a run of the component: an empty plan arrives, the user clicks
    submit, and while the call is in flight no second click goes through. *)
Lemma saving_guards_submission_witness :
  let waiting :=
    mkSystem
      (setError None (setSaveMessage None (setSaving true
         (run_settle "2024-05-01" (Fulfilled []) (run_start initial_state)))))
      [AwaitCheckin {| checkin_child_id := 1; joy_score := 3;
                       parent_notes := EmptyString |}] in
  reachable "2024-05-01" 1 waiting
  /\ submissions_outstanding waiting = 1%nat
  /\ submit_disabled (ui waiting) = true
  /\ forall sys', ~ step "2024-05-01" 1 waiting SubmitClick sys'.
Proof.
  intros waiting.
  assert (Hreach : reachable "2024-05-01" 1 waiting).
  { eapply reachable_step.
    - eapply reachable_step; [apply reachable_mounted |].
      exact (step_plan "2024-05-01" 1 (run_start initial_state) [] []
               (Fulfilled [])).
    - exact (step_submit "2024-05-01" 1
               (run_settle "2024-05-01" (Fulfilled []) (run_start initial_state))
               [] eq_refl). }
  destruct (saving_guards_submission localhost sample_engine "2024-05-01" 1)
    as (_ & _ & _ & _ & Hsys).
  destruct (Hsys waiting Hreach) as (_ & _ & Hblocked).
  destruct (Hblocked eq_refl) as [Hdisabled Hnoclick].
  split; [exact Hreach | split; [reflexivity | split; [exact Hdisabled | exact Hnoclick]]].
Defined.

(** The scenario of the specification: the plan of child 1 has five tasks
    of which two are completed and displays 40%; the third task is ticked
    and confirmed, 60%; the fifth is ticked and refused, and the
    collection is the one that displayed 60%, with the error shown. *)
Example scenario_40_60_rollback :
  let server := scenario_server live_tasks in
  let (log1, st1) := mount localhost sample_engine "2024-05-01" 1 server [] initial_state in
  let (log2, st2) := onToggleTask localhost server log1 3 true st1 in
  let (log3, st3) := onToggleTask localhost server log2 5 true st2 in
  completionPercentage (tasks st1) = Number_of_Z 40
  /\ completionPercentage (tasks st2) = Number_of_Z 60
  /\ tasks st3 = tasks st2
  /\ completionPercentage (tasks st3) = Number_of_Z 60
  /\ error st3 = Some "Could not update task status. Please try again."
  /\ length log3 = 3%nat.
Proof. vm_compute. repeat split. Qed.

(** ** The further properties at concrete inputs *)

Lemma fetchDailyPlan_fulfils_iff_witness :
  snd (perform (scenario_server live_tasks) [] (fetchDailyPlan localhost sample_engine 1))
  = Fulfilled live_tasks
  /\ exists response,
       scenario_server live_tasks [] TTasks (plan_request localhost sample_engine 1)
       = Fulfilled response
       /\ ok response = true.
Proof.
  assert (H : snd (perform (scenario_server live_tasks) []
                     (fetchDailyPlan localhost sample_engine 1)) = Fulfilled live_tasks)
    by reflexivity.
  split; [exact H |].
  destruct (proj1 (fetchDailyPlan_fulfils_iff localhost sample_engine
                     (scenario_server live_tasks) [] 1 live_tasks) H)
    as [(response & E & Hok & _) | (response & _ & _ & E & H404 & _)].
  - exists response. now split.
  - injection E as <-. discriminate H404.
Defined.

Lemma completeTask_outcome_witness :
  always_status 503 [] TTask (complete_request localhost 2 true)
  = Fulfilled {| status := 503; json := unreadable TTask |}
  /\ perform (always_status 503) [] (completeTask localhost 2 true)
     = ([complete_request localhost 2 true],
        Rejected (new_Error "Failed to update task status")).
Proof.
  destruct (completeTask_outcome localhost (always_status 503) [] 2 true)
    as (_ & Hrefused & _).
  split; [reflexivity |].
  exact (Hrefused {| status := 503; json := unreadable TTask |} eq_refl eq_refl).
Defined.

Lemma saveDailyCheckin_looks_at_status_only_witness :
  let payload := {| checkin_child_id := 1; joy_score := 4;
                    parent_notes := "great day" |} in
  json {| status := 204; json := unreadable TIgnored |}
  = Rejected (ErrorObject "SyntaxError" "Unexpected end of JSON input")
  /\ snd (perform (always_status 204) [] (saveDailyCheckin localhost sample_engine payload))
     = Fulfilled tt.
Proof.
  intros payload. split; [reflexivity |].
  apply (proj2 (saveDailyCheckin_looks_at_status_only localhost sample_engine
                  (always_status 204) [] payload)).
  exists {| status := 204; json := unreadable TIgnored |}. split; reflexivity.
Defined.

Lemma requests_identify_their_subject_witness :
  safe_integer 7 = true
  /\ safe_integer (3 + 4) = true
  /\ plan_request localhost sample_engine 7
     = plan_request localhost sample_engine (3 + 4)
  /\ 7 = 3 + 4.
Proof.
  assert (H : plan_request localhost sample_engine 7
              = plan_request localhost sample_engine (3 + 4)) by reflexivity.
  split; [reflexivity | split; [reflexivity | split; [exact H |]]].
  exact (proj1 (requests_identify_their_subject localhost sample_engine)
               7 (3 + 4) eq_refl eq_refl H).
Defined.

Lemma fetchDailyPlan_extends_legacy_witness :
  (forall response,
      always_status 500 [] TTasks (plan_request localhost sample_engine 1) = Fulfilled response ->
      status response <> 404)
  /\ perform (always_status 500) [] (fetchDailyPlan localhost sample_engine 1)
     = perform (always_status 500) [] (legacy_fetchDailyPlan localhost sample_engine 1).
Proof.
  assert (H : forall response,
             always_status 500 [] TTasks (plan_request localhost sample_engine 1)
             = Fulfilled response ->
             status response <> 404).
  { intros response [= <-]. discriminate. }
  split; [exact H |].
  exact (proj1 (fetchDailyPlan_extends_legacy localhost sample_engine (always_status 500) [] 1) H).
Defined.

Lemma loaded_reachable : reachable "2024-05-01" 1 loaded.
Proof.
  pose (arrived := run_settle "2024-05-01" (Fulfilled live_tasks)
                    (run_start initial_state)).
  apply (reachable_step "2024-05-01" 1 (mkSystem (setJoyScore 4 arrived) [])
           (NotesInput "great day")).
  - apply (reachable_step "2024-05-01" 1 (mkSystem arrived []) (JoyInput 4)).
    + apply (reachable_step "2024-05-01" 1 mounted
               (PlanSettled (Fulfilled live_tasks))).
      * apply reachable_mounted.
      * exact (step_plan "2024-05-01" 1 (run_start initial_state) [] []
                 (Fulfilled live_tasks)).
    + exact (step_joy "2024-05-01" 1 arrived [] 4).
  - exact (step_notes "2024-05-01" 1 (setJoyScore 4 arrived) [] "great day").
Defined.

(** The second task is ticked, and the server refuses. *)
Lemma loaded_collection_keeps_its_tasks_witness :
  let refused :=
    mkSystem (onToggleTask_settle (mkToggleAwait live_tasks 2 true)
                (Rejected (new_Error "Failed to update task status"))
                (setTasks_from (mark 2 true) live_state)) [] in
  reachable "2024-05-01" 1 loaded
  /\ loading (ui loaded) = false
  /\ evolves "2024-05-01" 1 loaded refused
  /\ map id (tasks (ui refused)) = [1; 2; 3; 4; 5].
Proof.
  intros refused.
  assert (Hev : evolves "2024-05-01" 1 loaded refused).
  { eapply evolves_step.
    - eapply evolves_step; [apply evolves_refl |].
      exact (step_toggle "2024-05-01" 1 live_state [] (sample_task 2 false) true
               (or_intror (or_introl eq_refl))).
    - exact (step_complete "2024-05-01" 1 (setTasks_from (mark 2 true) live_state)
               [] [] (mkToggleAwait live_tasks 2 true)
               (Rejected (new_Error "Failed to update task status"))). }
  destruct (loaded_collection_keeps_its_tasks "2024-05-01" 1 loaded refused
              loaded_reachable eq_refl Hev) as (_ & Hids & _).
  split; [exact loaded_reachable | split; [reflexivity | split; [exact Hev |]]].
  rewrite Hids. reflexivity.
Defined.

Lemma mark_last_wins_witness :
  (forall task, In task live_tasks -> id task = 1 -> completed task = true)
  /\ mark 1 true live_tasks = live_tasks.
Proof.
  assert (H : forall task, In task live_tasks -> id task = 1 -> completed task = true).
  { intros task Hin. cbn in Hin.
    repeat (destruct Hin as [<- | Hin]; [cbn; intros; (reflexivity || discriminate) |]).
    destruct Hin. }
  split; [exact H |].
  exact (proj2 (mark_last_wins 1 false true live_tasks) H).
Defined.

Lemma live_tasks_unique : NoDup (map id live_tasks).
Proof.
  cbn. repeat (constructor; [cbn; intuition discriminate |]). constructor.
Defined.

Lemma toggle_moves_done_count_by_one_witness :
  NoDup (map id live_tasks)
  /\ In (sample_task 2 false) live_tasks
  /\ done_count live_tasks = 2%nat
  /\ done_count (mark 2 true live_tasks) = 3%nat.
Proof.
  assert (Hin : In (sample_task 2 false) live_tasks) by (right; left; reflexivity).
  pose proof (toggle_moves_done_count_by_one live_tasks (sample_task 2 false) true
                live_tasks_unique Hin) as H.
  split; [exact live_tasks_unique | split; [exact Hin | split; [reflexivity |]]].
  cbn [id sample_task completed] in H.
  change (done_count live_tasks) with 2%nat in H. lia.
Defined.

Lemma completionPercentage_ignores_order_witness :
  Permutation live_tasks (rev live_tasks)
  /\ completionPercentage (rev live_tasks) = Number_of_Z 40.
Proof.
  assert (H : Permutation live_tasks (rev live_tasks)) by apply Permutation_rev.
  split; [exact H |].
  rewrite <- (completionPercentage_ignores_order live_tasks (rev live_tasks) H).
  reflexivity.
Defined.

Lemma unknown_identifier_changes_nothing_witness :
  (forall task, In task (tasks live_state) -> id task <> id (sample_task 77 true))
  /\ tasks (onToggleTask_settle (mkToggleAwait live_tasks 2 true)
              (Fulfilled (sample_task 77 true)) live_state)
     = live_tasks.
Proof.
  assert (H : forall task,
             In task (tasks live_state) -> id task <> id (sample_task 77 true)).
  { intros task Hin. cbn in Hin.
    repeat (destruct Hin as [<- | Hin]; [cbn; discriminate |]). destruct Hin. }
  split; [exact H |].
  exact (proj1 (unknown_identifier_changes_nothing live_state live_state
                  (sample_task 77 true) 77 true) H
               (mkToggleAwait live_tasks 2 true)).
Defined.

Lemma rollback_discards_confirmed_toggle_witness :
  In (sample_task 2 false) (tasks live_state)
  /\ In (sample_task 3 false) (tasks live_state)
  /\ exists sys,
       evolves "2024-05-01" 1 loaded sys
       /\ tasks (ui sys) = live_tasks
       /\ inflight sys = [].
Proof.
  assert (H2 : In (sample_task 2 false) (tasks live_state))
    by (right; left; reflexivity).
  assert (H3 : In (sample_task 3 false) (tasks live_state))
    by (right; right; left; reflexivity).
  assert (L2 : id (sample_task 2 false) < 1000) by (cbn; lia).
  assert (L3 : id (sample_task 3 false) < 1000) by (cbn; lia).
  destruct (rollback_discards_confirmed_toggle "2024-05-01" 1 live_state
              (sample_task 2 false) (sample_task 3 false) true true
              (sample_task 3 true) (new_Error "Failed to update task status")
              H2 H3 L2 L3)
    as (s1 & s2 & s3 & s4 & S1 & S2 & S3 & S4 & Htasks & Hnone).
  split; [exact H2 | split; [exact H3 |]].
  exists s4. split; [| split; [exact Htasks | exact Hnone]].
  eapply evolves_step; [| exact S4].
  eapply evolves_step; [| exact S3].
  eapply evolves_step; [| exact S2].
  eapply evolves_step; [apply evolves_refl | exact S1].
Defined.

Lemma toggle_leaves_the_rest_witness :
  (forall e, snd (perform accepting [] (completeTask localhost 2 true)) <> Rejected e)
  /\ error (snd (onToggleTask localhost accepting [] 2 true
                   (setError (Some "Could not update task status. Please try again.")
                      live_state)))
     = Some "Could not update task status. Please try again.".
Proof.
  assert (H : forall e,
             snd (perform accepting [] (completeTask localhost 2 true))
             <> Rejected e).
  { intros e. discriminate. }
  split; [exact H |].
  destruct (toggle_leaves_the_rest localhost accepting [] 2 true
              (setError (Some "Could not update task status. Please try again.")
                 live_state)) as (_ & Hkept & _).
  exact (Hkept H).
Defined.

Lemma loadDashboardData_failures_witness :
  let weekly := chart_reply 200 (weekly_value absent absent) in
  let pillars := chart_reply 500 (@null (list PillarDistributionPoint)) in
  let difficulties := chart_reply 200 (@null (list DifficultyTrendPoint)) in
  chart_ok weekly && chart_ok pillars && chart_ok difficulties = false
  /\ charts_error (loadDashboardData "Cannot read properties of null" []
                     (Fulfilled weekly) (Fulfilled pillars) (Fulfilled difficulties)
                     charts_initial)
     = Some "Failed to fetch dashboard analytics".
Proof.
  intros weekly pillars difficulties.
  destruct (loadDashboardData_failures "Cannot read properties of null" []
              (Fulfilled weekly) (Fulfilled pillars) (Fulfilled difficulties)
              charts_initial) as (Hrefused & _).
  split; [reflexivity |].
  exact (Hrefused weekly pillars difficulties eq_refl eq_refl eq_refl eq_refl).
Defined.

Lemma loadDashboardData_defaults_witness :
  let weekly := chart_reply 200 (weekly_value (present (mkToday null)) absent) in
  let pillars := chart_reply 200 (@null (list PillarDistributionPoint)) in
  let difficulties := chart_reply 200 (@null (list DifficultyTrendPoint)) in
  let st' := loadDashboardData "Cannot read properties of null" []
               (Fulfilled weekly) (Fulfilled pillars) (Fulfilled difficulties)
               charts_initial in
  chart_ok weekly = true /\ chart_ok pillars = true /\ chart_ok difficulties = true
  /\ todayCompletion st' = Number_of_Z 0
  /\ weeklyData st' = [] /\ pillarData st' = [] /\ difficultyData st' = [].
Proof.
  intros weekly pillars difficulties st'.
  destruct (loadDashboardData_defaults "Cannot read properties of null" []
              weekly pillars difficulties (present (mkToday null)) absent null null
              charts_initial eq_refl eq_refl eq_refl eq_refl eq_refl eq_refl)
    as (_ & Htoday & Hweekly & Hpillars & Hdifficulties).
  split; [reflexivity | split; [reflexivity | split; [reflexivity |]]].
  split; [exact Htoday | split; [exact Hweekly | split;
    [exact Hpillars | exact Hdifficulties]]].
Defined.

Lemma circleData_remaining_witness :
  0 <= 40 <= 100
  /\ circleData (Number_of_Z 40)
     = [("Completed", Number_of_Z 40); ("Remaining", Number_of_Z 60)].
Proof.
  assert (H : 0 <= 40 <= 100) by lia.
  split; [exact H |].
  exact (proj2 circleData_remaining 40 H).
Defined.

(** The server confirms the second task as not completed. *)
Lemma confirmation_overrides_the_optimistic_flag_witness :
  let contrary : Network :=
    fun _ t _ =>
      match t return JsResult (Response t) with
      | TTasks => Fulfilled {| status := 200; json := Fulfilled ([] : body_of TTasks) |}
      | TTask => Fulfilled {| status := 200;
                              json := Fulfilled (sample_task 2 false : body_of TTask) |}
      | TIgnored => Fulfilled {| status := 200; json := Fulfilled (tt : body_of TIgnored) |}
      end in
  2 < 1000
  /\ snd (perform contrary [] (completeTask localhost 2 true))
     = Fulfilled (sample_task 2 false)
  /\ tasks (snd (onToggleTask localhost contrary [] 2 true live_state)) = live_tasks.
Proof.
  intros contrary.
  assert (Hlt : 2 < 1000) by lia.
  assert (Hok : snd (perform contrary [] (completeTask localhost 2 true))
                = Fulfilled (sample_task 2 false)) by reflexivity.
  destruct (confirmation_overrides_the_optimistic_flag localhost contrary [] 2 true
              live_state (sample_task 2 false) Hlt Hok eq_refl) as [_ H].
  split; [exact Hlt | split; [exact Hok |]].
  rewrite H. reflexivity.
Defined.

(** The slider is moved to 5 and the checkin is submitted before the plan
    has arrived. *)
Lemma checkins_carry_a_slider_score_witness :
  let submitted :=
    mkSystem (setError None (setSaveMessage None (setSaving true
                (setJoyScore 5 (run_start initial_state)))))
             [AwaitPlan;
              AwaitCheckin {| checkin_child_id := 1; joy_score := 5;
                              parent_notes := EmptyString |}] in
  reachable_with_slider "2024-05-01" 1 submitted
  /\ joyScore (ui submitted) = 5
  /\ forall payload,
       In (AwaitCheckin payload) (inflight submitted) ->
       1 <= joy_score payload <= 5 /\ checkin_child_id payload = 1.
Proof.
  intros submitted.
  assert (H : reachable_with_slider "2024-05-01" 1 submitted).
  { apply (slider_step "2024-05-01" 1
             (mkSystem (setJoyScore 5 (run_start initial_state)) [AwaitPlan])
             SubmitClick).
    - apply (slider_step "2024-05-01" 1 mounted (JoyInput 5)).
      + apply slider_mounted.
      + cbn. lia.
      + exact (step_joy "2024-05-01" 1 (run_start initial_state) [AwaitPlan] 5).
    - exact I.
    - exact (step_submit "2024-05-01" 1 (setJoyScore 5 (run_start initial_state))
               [AwaitPlan] eq_refl). }
  destruct (checkins_carry_a_slider_score "2024-05-01" 1 submitted H) as [_ Hpay].
  split; [exact H | split; [reflexivity | exact Hpay]].
Defined.

(** An empty plan arrives, the checkin is submitted, and the server
    refuses it. *)
Lemma submission_messages_witness :
  let waiting :=
    mkSystem
      (setError None (setSaveMessage None (setSaving true
         (run_settle "2024-05-01" (Fulfilled []) (run_start initial_state)))))
      [AwaitCheckin {| checkin_child_id := 1; joy_score := 3;
                       parent_notes := EmptyString |}] in
  let refused :=
    mkSystem
      (onSubmit_settle
         (Rejected (new_Error "Failed to save joy score and parent notes"))
         (ui waiting)) [] in
  reachable "2024-05-01" 1 waiting
  /\ step "2024-05-01" 1 waiting
       (CheckinSettled {| checkin_child_id := 1; joy_score := 3;
                          parent_notes := EmptyString |}
          (Rejected (new_Error "Failed to save joy score and parent notes")))
       refused
  /\ error (ui refused) = Some "Failed to save joy score and parent notes"
  /\ saveMessage (ui refused) = None.
Proof.
  intros waiting refused.
  assert (Hreach : reachable "2024-05-01" 1 waiting).
  { apply (reachable_step "2024-05-01" 1
             (mkSystem (run_settle "2024-05-01" (Fulfilled [])
                          (run_start initial_state)) [])
             SubmitClick).
    - apply (reachable_step "2024-05-01" 1 mounted (PlanSettled (Fulfilled []))).
      + apply reachable_mounted.
      + exact (step_plan "2024-05-01" 1 (run_start initial_state) [] []
                 (Fulfilled [])).
    - exact (step_submit "2024-05-01" 1
               (run_settle "2024-05-01" (Fulfilled []) (run_start initial_state))
               [] eq_refl). }
  assert (Hstep : step "2024-05-01" 1 waiting
                    (CheckinSettled {| checkin_child_id := 1; joy_score := 3;
                                       parent_notes := EmptyString |}
                       (Rejected (new_Error
                          "Failed to save joy score and parent notes")))
                    refused).
  { exact (step_checkin "2024-05-01" 1 (ui waiting) [] [] _ _). }
  destruct (submission_messages localhost sample_engine "2024-05-01" 1)
    as (_ & Hrefused & _).
  destruct (Hrefused waiting _ _ refused Hreach Hstep) as [Herr Hmsg].
  split; [exact Hreach | split; [exact Hstep | split; [exact Herr | exact Hmsg]]].
Defined.
